(** * Silicon Labs C2 master over an FTDI MPSSE engine (pyftdi/c2.py)

    A shallow embedding of [C2Controller]: the four C2 transactions, the
    output buffer with its automatic flush, and reset/claim/release/close.

    The transport class [Ftdi] lives in pyftdi/ftdi.py, outside the
    sources at hand.  It is taken as an interface ([Ftdi.Api]) over an
    arbitrary transport state, and its MPSSE opcode constants as a record
    of parameters ([Ftdi.Opcodes]).  What the controller sends is observed
    through a recording wrapper ([Spy]) around any transport. *)

From Stdlib Require Import String ZArith List Bool Lia.
Import ListNotations.
Local Open Scope Z_scope.

(** ** Python exceptions and results *)

Inductive Exn : Type :=
| C2Error (msg : string)       (* class C2Error(Exception), c2.py:9 *)
| TypeError (msg : string)
| ValueError (msg : string)    (* bytearray() on an int outside range(256) *)
| IndexError (msg : string)    (* data[0] on an empty reply *)
| FtdiError (msg : string).    (* anything raised inside the transport *)

Inductive Res (A : Type) : Type :=
| Ok (a : A)
| Raise (e : Exn).
Arguments Ok {A} a.
Arguments Raise {A} e.

(** The message both connection guards of c2.py raise. *)
Definition terminated : Exn := C2Error "FTDI controller terminated"%string.

(** ** The transport interface *)

Module Ftdi.

(** Result of one transport call: a value, or an exception of the
    transport's own. *)
Inductive TRes (A : Type) : Type :=
| TOk (a : A)
| TFail (why : string).
Arguments TOk {A} a.
Arguments TFail {A} why.

(** The class attributes of [Ftdi] that c2.py reads. *)
Record Opcodes : Type := mkOpcodes {
  SET_BITS_LOW : Z;
  CLK_BITS_NO_DATA : Z;
  WRITE_BITS_PVE_LSB : Z;
  WRITE_BYTES_PVE_LSB : Z;
  READ_BYTES_PVE_LSB : Z;
  CLK_WAIT_ON_HIGH : Z
}.

(** The methods of [Ftdi] that c2.py calls (configure apart), as state
    transformers on the transport state [T].  [write_data] returns a
    byte count in pyftdi; the controller drops it. *)
Class Api (T : Type) : Type := {
  is_connected : T -> bool;
  close : bool -> T -> TRes unit * T;
  purge_buffers : T -> TRes unit * T;
  write_data : list Z -> T -> TRes unit * T;
  read_data_bytes : Z -> Z -> T -> TRes (list Z) * T
}.

End Ftdi.

Import Ftdi.

(** ** bytes and bytearray *)

Definition is_byte (x : Z) : bool := (0 <=? x) && (x <? 256).

(** [bytearray(iterable_of_ints)]: ValueError unless every item is in
    range(0, 256). *)
Definition bytearray (xs : list Z) : Res (list Z) :=
  if forallb is_byte xs then Ok xs
  else Raise (ValueError "byte must be in range(0, 256)"%string).

(** A Python argument as [_stack_cmd] tells them apart with isinstance. *)
Inductive PyObj : Type :=
| PyBytes (b : list Z)
| PyByteArray (b : list Z)
| PyOther.

Definition isinstance_bytes (o : PyObj) : bool :=
  match o with PyBytes _ | PyByteArray _ => true | PyOther => false end.

Definition py_bytes (o : PyObj) : list Z :=
  match o with PyBytes b | PyByteArray b => b | PyOther => [] end.

Definition py_len (b : list Z) : Z := Z.of_nat (length b).

(** ** Class constants (c2.py:17-26) *)

Definition CK_BIT : Z := 0x01.
Definition D_O_BIT : Z := 0x02.
Definition D_I_BIT : Z := 0x04.
Definition D_FB_BIT : Z := 0x20.
Definition FTDI_PIPE_LEN : Z := 512.
Definition INS_READ_DATA : Z := 0.
Definition INS_WRITE_DATA : Z := 1.
Definition INS_READ_ADDR : Z := 2.
Definition INS_WRITE_ADDR : Z := 3.

(** ** Command encoder: the tuples the four transactions pass to bytearray *)

Section Encoder.
Variable op : Opcodes.

Definition write_addr_cmd (addr : Z) : list Z :=
  [ CLK_BITS_NO_DATA op; 0;                                                 (* START *)
    SET_BITS_LOW op; Z.lor CK_BIT D_O_BIT; Z.lor CK_BIT D_O_BIT;            (* drive C2D *)
    WRITE_BITS_PVE_LSB op; 1; INS_WRITE_ADDR;                               (* INS *)
    WRITE_BYTES_PVE_LSB op; 0; 0; addr;                                     (* ADDRESS *)
    SET_BITS_LOW op; Z.lor CK_BIT D_O_BIT; CK_BIT;                          (* release C2D *)
    CLK_BITS_NO_DATA op; 0 ].                                               (* STOP *)

Definition read_addr_cmd : list Z :=
  [ CLK_BITS_NO_DATA op; 0;                                                 (* START *)
    SET_BITS_LOW op; Z.lor CK_BIT D_O_BIT; Z.lor CK_BIT D_O_BIT;            (* drive C2D *)
    WRITE_BITS_PVE_LSB op; 1; INS_READ_ADDR;                                (* INS *)
    SET_BITS_LOW op; Z.lor CK_BIT D_O_BIT; CK_BIT;                          (* release C2D *)
    READ_BYTES_PVE_LSB op; 0; 0;                                            (* ADDRESS *)
    CLK_BITS_NO_DATA op; 0 ].                                               (* STOP *)

Definition write_data_byte_cmd (val : Z) : list Z :=
  [ CLK_BITS_NO_DATA op; 0;                                                 (* START *)
    SET_BITS_LOW op; Z.lor CK_BIT D_O_BIT; Z.lor CK_BIT D_O_BIT;            (* drive C2D *)
    WRITE_BITS_PVE_LSB op; 3; INS_WRITE_DATA;                               (* INS+LENGTH0 *)
    WRITE_BYTES_PVE_LSB op; 0; 0; val;                                      (* DATA *)
    SET_BITS_LOW op; Z.lor CK_BIT D_O_BIT; CK_BIT;                          (* release C2D *)
    CLK_WAIT_ON_HIGH op;                                                    (* WAIT *)
    CLK_BITS_NO_DATA op; 0 ].                                               (* STOP *)

Definition read_data_byte_cmd : list Z :=
  [ CLK_BITS_NO_DATA op; 0;                                                 (* START *)
    SET_BITS_LOW op; Z.lor CK_BIT D_O_BIT; Z.lor CK_BIT D_O_BIT;            (* drive C2D *)
    WRITE_BITS_PVE_LSB op; 3; INS_READ_DATA;                                (* INS+LENGTH0 *)
    SET_BITS_LOW op; Z.lor CK_BIT D_O_BIT; CK_BIT;                          (* release C2D *)
    CLK_WAIT_ON_HIGH op;                                                    (* WAIT *)
    READ_BYTES_PVE_LSB op; 0; 0;                                            (* DATA *)
    CLK_BITS_NO_DATA op; 0 ].                                               (* STOP *)

(** The two pulses of [reset] and the commands of [claim] and [release]. *)
Definition reset_low_cmd : list Z := [ SET_BITS_LOW op; Z.lor 0 D_O_BIT; CK_BIT ].
Definition reset_high_cmd : list Z := [ SET_BITS_LOW op; Z.lor CK_BIT D_O_BIT; CK_BIT ].
Definition claim_cmd : list Z := [ SET_BITS_LOW op; Z.lor CK_BIT D_O_BIT; CK_BIT ].
Definition release_cmd : list Z := [ SET_BITS_LOW op; Z.lor CK_BIT D_O_BIT; 0 ].

End Encoder.

(** ** The controller *)

Section Controller.
Variable op : Opcodes.
Context {T : Type} {api : Api T}.

(** Instance state set up by [__init__] (the clock frequency, used by
    configure only, is left out). *)
Record C2Controller : Type := mkC2 {
  _ftdi : T;
  _write_buff : list Z
}.

(** Methods run in a state-and-exception monad over the instance: a
    raise keeps the mutations made before it. *)
Definition M (A : Type) : Type := C2Controller -> Res A * C2Controller.

Definition ret {A} (a : A) : M A := fun self => (Ok a, self).
Definition raise {A} (e : Exn) : M A := fun self => (Raise e, self).
Definition bind {A B} (m : M A) (k : A -> M B) : M B :=
  fun self =>
    match m self with
    | (Ok a, self') => k a self'
    | (Raise e, self') => (Raise e, self')
    end.
Definition lift {A} (r : Res A) : M A := fun self => (r, self).

Notation "x <- m ;; k" := (bind m (fun x => k))
  (at level 61, m at next level, right associativity).
Notation "m ;; k" := (bind m (fun _ => k))
  (at level 61, right associativity).

(** [self._ftdi.method(...)]: the transport moves on whether or not the
    call raises. *)
Definition ftdi_call {A} (f : T -> TRes A * T) : M A :=
  fun self =>
    let '(r, t') := f (_ftdi self) in
    (match r with TOk a => Ok a | TFail why => Raise (FtdiError why) end,
     mkC2 t' (_write_buff self)).

Definition get_write_buff : M (list Z) := fun self => (Ok (_write_buff self), self).
Definition set_write_buff (b : list Z) : M unit :=
  fun self => (Ok tt, mkC2 (_ftdi self) b).
Definition get_ftdi : M T := fun self => (Ok (_ftdi self), self).
Definition ftdi_connected : M bool := fun self => (Ok (is_connected (_ftdi self)), self).

(** Truth value of [self._ftdi]: [__init__] binds it to an [Ftdi]
    instance and nothing rebinds it, [close] included; the transport
    class defines no truth value of its own ([__bool__], [__len__]), so
    the instance is true like any plain object. *)
Definition ftdi_truth (_ : T) : bool := true.

(** c2.py:79-84 *)
Definition sync : M unit :=
  connected <- ftdi_connected ;;
  if negb connected then raise terminated
  else
    buff <- get_write_buff ;;
    match buff with
    | [] => ret tt
    | _ :: _ =>
        ftdi_call (write_data buff) ;;
        set_write_buff []
    end.

(** c2.py:69-77 *)
Definition _stack_cmd (cmd : PyObj) : M unit :=
  if negb (isinstance_bytes cmd) then raise (TypeError "Expect bytes or bytearray"%string)
  else
    ftdi <- get_ftdi ;;
    if negb (ftdi_truth ftdi) then raise terminated
    else
      buff <- get_write_buff ;;
      (* Currrent buffer + new command + send_immediate *)
      (if py_len buff + py_len (py_bytes cmd) + 1 >=? FTDI_PIPE_LEN
       then sync else ret tt) ;;
      buff <- get_write_buff ;;
      set_write_buff (buff ++ py_bytes cmd).

(** c2.py:46-56 *)
Definition close (freeze : bool) : M unit :=
  connected <- ftdi_connected ;;
  if connected then ftdi_call (Ftdi.close freeze) else ret tt.

(** c2.py:58-59 *)
Definition purge : M unit := ftdi_call purge_buffers.

(** c2.py:86-92 *)
Definition claim : M unit :=
  cmd <- lift (bytearray (claim_cmd op)) ;;
  ftdi_call (write_data cmd).

(** c2.py:94-101 *)
Definition release : M unit :=
  sync ;;
  cmd <- lift (bytearray (release_cmd op)) ;;
  ftdi_call (write_data cmd).

(** c2.py:103-114 *)
Definition reset : M unit :=
  connected <- ftdi_connected ;;
  if negb connected then raise terminated
  else
    sync ;;
    cmd <- lift (bytearray (reset_low_cmd op)) ;;
    ftdi_call (write_data cmd) ;;
    cmd <- lift (bytearray (reset_high_cmd op)) ;;
    ftdi_call (write_data cmd).

(** [data[0]] on the reply of [read_data_bytes], a bytearray. *)
Definition first_byte (data : list Z) : Res Z :=
  match data with
  | [] => Raise (IndexError "bytearray index out of range"%string)
  | b :: _ => Ok b
  end.

(** c2.py:116-130 *)
Definition write_addr (addr : Z) : M unit :=
  cmd <- lift (bytearray (write_addr_cmd op addr)) ;;
  _stack_cmd (PyByteArray cmd).

(** c2.py:132-150 *)
Definition read_addr : M Z :=
  cmd <- lift (bytearray (read_addr_cmd op)) ;;
  _stack_cmd (PyByteArray cmd) ;;
  sync ;;
  data <- ftdi_call (read_data_bytes 1 4) ;;
  lift (first_byte data).

(** c2.py:152-167 *)
Definition write_data_byte (val : Z) : M unit :=
  cmd <- lift (bytearray (write_data_byte_cmd op val)) ;;
  _stack_cmd (PyByteArray cmd).

(** c2.py:169-188 *)
Definition read_data_byte : M Z :=
  cmd <- lift (bytearray (read_data_byte_cmd op)) ;;
  _stack_cmd (PyByteArray cmd) ;;
  sync ;;
  data <- ftdi_call (read_data_bytes 1 4) ;;
  lift (first_byte data).

End Controller.

Arguments C2Controller T : clear implicits.
Arguments mkC2 {T} _ftdi _write_buff.
Arguments M T A : clear implicits.

(** ** Observing the transport: a recording wrapper *)

(** One call made on the transport, with its arguments. *)
Inductive Call : Type :=
| CallClose (freeze : bool)
| CallPurge
| CallWrite (data : list Z)
| CallRead (size attempt : Z).

(** A transport together with the calls made on it so far, oldest first. *)
Record Spy (T : Type) : Type := mkSpy {
  inner : T;
  calls : list Call
}.
Arguments mkSpy {T} inner calls.
Arguments inner {T} s.
Arguments calls {T} s.

Definition record {T A} (c : Call) (f : T -> TRes A * T) (s : Spy T) : TRes A * Spy T :=
  let '(r, t') := f (inner s) in (r, mkSpy t' (calls s ++ [c])).

#[export] Instance spy_api {T} {api : Api T} : Api (Spy T) := {|
  is_connected s := is_connected (inner s);
  Ftdi.close freeze := record (CallClose freeze) (Ftdi.close freeze);
  purge_buffers := record CallPurge purge_buffers;
  write_data data := record (CallWrite data) (write_data data);
  read_data_bytes size attempt := record (CallRead size attempt) (read_data_bytes size attempt)
|}.

(** The calls recorded on a controller's transport. *)
Definition sent {T} (self : C2Controller (Spy T)) : list Call := calls (_ftdi self).

(** ** A concrete transport for closed examples *)

(** A simulated device: writes are accepted while the port is open, each
    read answers with the next scripted reply (nothing once the script is
    used up), close shuts the port. *)
Record Stub : Type := mkStub {
  connected : bool;
  replies : list (list Z)
}.

#[export] Instance stub_api : Api Stub := {|
  is_connected := connected;
  Ftdi.close _ s := (TOk tt, mkStub false (replies s));
  purge_buffers s := (TOk tt, s);
  write_data _ s := if connected s then (TOk tt, s) else (TFail "port is closed"%string, s);
  read_data_bytes _ _ s :=
    if connected s then
      match replies s with
      | [] => (TOk [], s)
      | r :: rs => (TOk r, mkStub true rs)
      end
    else (TFail "port is closed"%string, s)
|}.

(** The opcode values of pyftdi's [Ftdi] class (FTDI application note
    AN108). *)
Definition pyftdi_opcodes : Opcodes := {|
  SET_BITS_LOW := 0x80;
  CLK_BITS_NO_DATA := 0x8e;
  WRITE_BITS_PVE_LSB := 0x1a;
  WRITE_BYTES_PVE_LSB := 0x18;
  READ_BYTES_PVE_LSB := 0x28;
  CLK_WAIT_ON_HIGH := 0x94
|}.

(** A controller over a recorded stub: an open or closed port, an empty
    call record, a given pending buffer. *)
Definition stub_controller (open : bool) (script : list (list Z)) (buff : list Z)
  : C2Controller (Spy Stub) :=
  mkC2 (mkSpy (mkStub open script) []) buff.

(** ** Reading a frame back: the MPSSE command stream

    The encoder writes raw bytes; the claims speak of the commands in
    them.  [decode] parses a byte string into MPSSE commands, following the
    operand layout of each opcode the controller uses (opcode, then its
    fixed operands; a byte write carries a 16-bit little-endian length
    minus one and then that many payload bytes).  It is a reference
    reader, not part of c2.py. *)

Inductive Mpsse : Type :=
| ClkBitsNoData (count : Z)            (* pulse the clock, count+1 times, no data *)
| SetBitsLow (value direction : Z)     (* set the low GPIO byte: levels, then directions *)
| WriteBitsLsb (count data : Z)        (* clock out count+1 bits of data, LSB first *)
| WriteBytesLsb (payload : list Z)     (* clock out whole bytes, LSB first *)
| ReadBytesLsb (count : Z)             (* clock in count+1 bytes, LSB first *)
| ClkWaitOnHigh.                       (* clock until the wait input is high *)

Section Decoder.
Variable op : Opcodes.

Definition opcode_list : list Z :=
  [ CLK_BITS_NO_DATA op; SET_BITS_LOW op; WRITE_BITS_PVE_LSB op;
    WRITE_BYTES_PVE_LSB op; READ_BYTES_PVE_LSB op; CLK_WAIT_ON_HIGH op ].

Fixpoint distinct (xs : list Z) : bool :=
  match xs with
  | [] => true
  | x :: rest => negb (existsb (Z.eqb x) rest) && distinct rest
  end.

(** What the controller needs of the opcode constants: each fits a byte
    (or bytearray() raises) and no two coincide (or the stream cannot be
    read back). *)
Definition opcodes_ok : bool := forallb is_byte opcode_list && distinct opcode_list.

Definition cons_cmd (c : Mpsse) (r : option (list Mpsse)) : option (list Mpsse) :=
  option_map (cons c) r.

Fixpoint decode_fuel (fuel : nat) (bs : list Z) : option (list Mpsse) :=
  match fuel with
  | O => None
  | S fuel =>
    match bs with
    | [] => Some []
    | b :: rest =>
      if b =? CLK_BITS_NO_DATA op then
        match rest with
        | n :: rest => cons_cmd (ClkBitsNoData n) (decode_fuel fuel rest)
        | _ => None
        end
      else if b =? SET_BITS_LOW op then
        match rest with
        | v :: d :: rest => cons_cmd (SetBitsLow v d) (decode_fuel fuel rest)
        | _ => None
        end
      else if b =? WRITE_BITS_PVE_LSB op then
        match rest with
        | n :: d :: rest => cons_cmd (WriteBitsLsb n d) (decode_fuel fuel rest)
        | _ => None
        end
      else if b =? WRITE_BYTES_PVE_LSB op then
        match rest with
        | lo :: hi :: rest =>
          let n := Z.to_nat (lo + 256 * hi + 1) in
          if (n <=? List.length rest)%nat
          then cons_cmd (WriteBytesLsb (firstn n rest)) (decode_fuel fuel (skipn n rest))
          else None
        | _ => None
        end
      else if b =? READ_BYTES_PVE_LSB op then
        match rest with
        | lo :: hi :: rest => cons_cmd (ReadBytesLsb (lo + 256 * hi)) (decode_fuel fuel rest)
        | _ => None
        end
      else if b =? CLK_WAIT_ON_HIGH op then
        cons_cmd ClkWaitOnHigh (decode_fuel fuel rest)
      else None
    end
  end.

(** Every command takes at least one byte, so the length bounds the
    number of commands. *)
Definition decode (bs : list Z) : option (list Mpsse) :=
  decode_fuel (S (List.length bs)) bs.

End Decoder.

Definition is_wait (c : Mpsse) : bool :=
  match c with ClkWaitOnHigh => true | _ => false end.

(** Number of WAIT commands in a decoded frame. *)
Definition count_wait (cs : list Mpsse) : nat := List.length (filter is_wait cs).

(** The C2 instruction of a decoded frame: the two low bits of the first
    bit write (the bits above them are the length field of data
    instructions). *)
Fixpoint frame_ins (cs : list Mpsse) : option Z :=
  match cs with
  | [] => None
  | WriteBitsLsb _ d :: _ => Some (Z.land d 3)
  | _ :: cs => frame_ins cs
  end.

(** The bytes a decoded frame writes after its instruction. *)
Fixpoint frame_payload (cs : list Mpsse) : option (list Z) :=
  match cs with
  | [] => None
  | WriteBytesLsb p :: _ => Some p
  | _ :: cs => frame_payload cs
  end.

(** ** Enqueuing a sequence of frames *)

(** A caller handing frames to the batcher one after another; the first
    failure ends the run. *)
Fixpoint enqueue_all {T} {api : Api T} (frames : list (list Z)) : M T unit :=
  match frames with
  | [] => ret tt
  | f :: rest => bind (_stack_cmd (PyByteArray f)) (fun _ => enqueue_all rest)
  end.

(** The transport after a series of writes, whatever each one answered. *)
Fixpoint after_writes {T} {api : Api T} (ws : list (list Z)) (t : T) : T :=
  match ws with
  | [] => t
  | w :: ws => after_writes ws (snd (write_data w t))
  end.

(** Number of WAIT commands in a frame, if it decodes. *)
Definition frame_waits (op : Opcodes) (frame : list Z) : option nat :=
  option_map count_wait (decode op frame).

(** Instruction and payload of a write frame, if it decodes to one. *)
Definition decode_write (op : Opcodes) (frame : list Z) : option (Z * list Z) :=
  match decode op frame with
  | Some cs =>
      match frame_ins cs, frame_payload cs with
      | Some ins, Some payload => Some (ins, payload)
      | _, _ => None
      end
  | None => None
  end.

(** ** Transport behaviour assumed on a success path *)

Definition is_ok {A} (r : TRes A) : bool :=
  match r with TOk _ => true | TFail _ => false end.

(** Every write of the series returns. *)
Fixpoint writes_ok {T} {api : Api T} (ws : list (list Z)) (t : T) : bool :=
  match ws with
  | [] => true
  | w :: ws => is_ok (fst (write_data w t)) && writes_ok ws (snd (write_data w t))
  end.

(** Every write of the series finds the port connected, and returns. *)
Fixpoint flushes_ok {T} {api : Api T} (ws : list (list Z)) (t : T) : bool :=
  match ws with
  | [] => true
  | w :: ws =>
      is_connected t && is_ok (fst (write_data w t))
      && flushes_ok ws (snd (write_data w t))
  end.

(** The writes a read transaction causes: the pending bytes and the
    read's frame, in one write when the frame fits below the threshold,
    in two when it does not. *)
Definition read_flushes (buff frame : list Z) : list (list Z) :=
  if py_len buff + py_len frame + 1 >=? FTDI_PIPE_LEN
  then [buff; frame]
  else [buff ++ frame].

(** The write [sync] makes for a pending buffer: none when it is empty. *)
Definition pending_flush (buff : list Z) : list (list Z) :=
  match buff with
  | [] => []
  | _ :: _ => [buff]
  end.

(** What [read_addr] and [read_data_byte] both do once their frame is
    built (c2.py:147-150 and 185-188). *)
Definition read_tail {T} {api : Api T} (frame : list Z) : M T Z :=
  bind (_stack_cmd (PyByteArray frame)) (fun _ =>
  bind sync (fun _ =>
  bind (ftdi_call (read_data_bytes 1 4)) (fun data =>
  lift (first_byte data)))).

(** The buffer a read transaction leaves behind when the port is not
    connected: untouched if the frame would have forced a flush, the
    frame appended otherwise. *)
Definition stranded (buff frame : list Z) : list Z :=
  if py_len buff + py_len frame + 1 >=? FTDI_PIPE_LEN then buff else buff ++ frame.

(** ** The flush policy as a function of the frames

    What enqueuing a sequence of frames should amount to, read off the
    threshold test alone: the writes that go out, oldest first, and the
    buffer left pending. *)
Fixpoint batch (buff : list Z) (frames : list (list Z)) : list (list Z) * list Z :=
  match frames with
  | [] => ([], buff)
  | f :: rest =>
      if py_len buff + py_len f + 1 >=? FTDI_PIPE_LEN
      then let '(ws, pending) := batch f rest in (pending_flush buff ++ ws, pending)
      else batch (buff ++ f) rest
  end.

(** A frame that leaves room in the pipe for the reserved byte. *)
Definition short_frame (f : list Z) : Prop := (List.length f < 511)%nat.

(** A device that claims to be open but refuses every write; reads answer
    with nothing. *)
Record Jammed : Type := mkJammed { jam_reason : string }.

#[export] Instance jammed_api : Api Jammed := {|
  is_connected _ := true;
  Ftdi.close _ s := (TOk tt, s);
  purge_buffers s := (TOk tt, s);
  write_data _ s := (TFail (jam_reason s), s);
  read_data_bytes _ _ s := (TOk [], s)
|}.

(** ** Any use of the public methods *)

(** One call of a public method of [C2Controller] (configure apart). *)
Inductive Op : Type :=
| OpClose (freeze : bool)
| OpPurge
| OpSync
| OpClaim
| OpRelease
| OpReset
| OpWriteAddr (addr : Z)
| OpReadAddr
| OpWriteDataByte (val : Z)
| OpReadDataByte.

Definition run_op (op : Opcodes) {T} {api : Api T} (o : Op) : M T unit :=
  match o with
  | OpClose freeze => close freeze
  | OpPurge => purge
  | OpSync => sync
  | OpClaim => claim op
  | OpRelease => release op
  | OpReset => reset op
  | OpWriteAddr addr => write_addr op addr
  | OpReadAddr => bind (read_addr op) (fun _ => ret tt)
  | OpWriteDataByte val => write_data_byte op val
  | OpReadDataByte => bind (read_data_byte op) (fun _ => ret tt)
  end.

(** A caller making one call after another, carrying on after an
    exception with the controller as the failed call left it. *)
Fixpoint run_ops (op : Opcodes) {T} {api : Api T} (os : list Op)
  (self : C2Controller T) : C2Controller T :=
  match os with
  | [] => self
  | o :: os => run_ops op os (snd (run_op op o self))
  end.

(** A transport call that fits the pipe: a write does when its payload
    and the reserved byte stay below [FTDI_PIPE_LEN]. *)
Definition call_fits (c : Call) : Prop :=
  match c with
  | CallWrite data => py_len data + 1 < FTDI_PIPE_LEN
  | _ => True
  end.

(** The pending buffer and every call made so far fit the pipe. *)
Definition fits {T} (self : C2Controller (Spy T)) : Prop :=
  py_len (_write_buff self) + 1 < FTDI_PIPE_LEN /\ Forall call_fits (sent self).

(** A method that keeps [fits], however it ends. *)
Definition keeps {T} {api : Api T} {A} (m : M (Spy T) A) : Prop :=
  forall self, fits self -> fits (snd (m self)).

(** ** Batches of write transactions *)

(** One queued write transaction. *)
Inductive WriteOp : Type :=
| WAddr (addr : Z)
| WData (val : Z).

Definition write_frame (op : Opcodes) (w : WriteOp) : list Z :=
  match w with
  | WAddr addr => write_addr_cmd op addr
  | WData val => write_data_byte_cmd op val
  end.

Definition run_write (op : Opcodes) {T} {api : Api T} (w : WriteOp) : M T unit :=
  match w with
  | WAddr addr => write_addr op addr
  | WData val => write_data_byte op val
  end.

(** Write transactions called one after another; the first exception
    ends the run. *)
Fixpoint run_writes (op : Opcodes) {T} {api : Api T} (ws : list WriteOp) : M T unit :=
  match ws with
  | [] => ret tt
  | w :: ws => bind (run_write op w) (fun _ => run_writes op ws)
  end.

Definition write_arg (w : WriteOp) : Z :=
  match w with WAddr x | WData x => x end.

(** The bytes of a batch: its frames, end to end. *)
Definition batch_bytes (op : Opcodes) (ws : list WriteOp) : list Z :=
  concat (map (write_frame op) ws).

(** The commands a frame is made of, and how many there are. *)
Definition write_cmds (w : WriteOp) : list Mpsse :=
  match w with
  | WAddr addr =>
      [ ClkBitsNoData 0; SetBitsLow 3 3; WriteBitsLsb 1 INS_WRITE_ADDR;
        WriteBytesLsb [addr]; SetBitsLow 3 1; ClkBitsNoData 0 ]
  | WData val =>
      [ ClkBitsNoData 0; SetBitsLow 3 3; WriteBitsLsb 3 INS_WRITE_DATA;
        WriteBytesLsb [val]; SetBitsLow 3 1; ClkWaitOnHigh; ClkBitsNoData 0 ]
  end.

Definition batch_cmds (ws : list WriteOp) : list Mpsse := concat (map write_cmds ws).

(** The write transaction an instruction and a payload byte stand for. *)
Definition write_of_ins (ins p : Z) : list WriteOp :=
  if ins =? INS_WRITE_ADDR then [WAddr p]
  else if ins =? INS_WRITE_DATA then [WData p]
  else [].

(** The write transactions in a command stream: each bit write directly
    followed by a one-byte byte write. *)
Fixpoint writes_of (cs : list Mpsse) : list WriteOp :=
  match cs with
  | [] => []
  | WriteBitsLsb _ d :: rest =>
      match rest with
      | WriteBytesLsb [p] :: _ => write_of_ins (Z.land d 3) p ++ writes_of rest
      | _ => writes_of rest
      end
  | _ :: rest => writes_of rest
  end.


(** A write transaction whose argument is a byte. *)
Definition byte_arg (w : WriteOp) : Prop := 0 <= write_arg w <= 255.

(** The frames handed to [_stack_cmd]: those its four callers build
    (c2.py:130, 147, 167, 185). *)
Inductive transaction_frame (op : Opcodes) : list Z -> Prop :=
| tf_write_addr addr : transaction_frame op (write_addr_cmd op addr)
| tf_read_addr : transaction_frame op (read_addr_cmd op)
| tf_write_data_byte val : transaction_frame op (write_data_byte_cmd op val)
| tf_read_data_byte : transaction_frame op (read_data_byte_cmd op).

(** * Properties *)

(** ** The opcode constants *)

Section OpcodeFacts.
Variable op : Opcodes.
Hypothesis Hop : opcodes_ok op = true.

Lemma opcodes_bytes : forallb is_byte (opcode_list op) = true.
Proof.
  unfold opcodes_ok in Hop. apply andb_true_iff in Hop. tauto.
Qed.

Lemma opcodes_distinct : distinct (opcode_list op) = true.
Proof.
  unfold opcodes_ok in Hop. apply andb_true_iff in Hop. tauto.
Qed.

Lemma is_byte_range x : is_byte x = true <-> 0 <= x < 256.
Proof. unfold is_byte. rewrite andb_true_iff, Z.leb_le, Z.ltb_lt. tauto. Qed.

End OpcodeFacts.

(** Splits boolean hypotheses into propositions. *)
Ltac split_bools :=
  repeat match goal with
  | H : _ && _ = true |- _ => apply andb_true_iff in H; destruct H
  | H : negb _ = true |- _ => apply negb_true_iff in H
  | H : _ || _ = false |- _ => apply orb_false_iff in H; destruct H
  | H : (_ =? _) = false |- _ => apply Z.eqb_neq in H
  | H : is_byte _ = true |- _ => apply is_byte_range in H
  end.

(** Turns [opcodes_ok op = true] into range facts and disequalities. *)
Ltac opcode_facts H :=
  let Hb := fresh "Hbytes" in
  let Hd := fresh "Hdistinct" in
  pose proof (opcodes_bytes _ H) as Hb;
  pose proof (opcodes_distinct _ H) as Hd;
  unfold opcode_list in Hb, Hd; cbn [forallb distinct existsb] in Hb, Hd;
  split_bools.

(** Settles the opcode tests of [decode_fuel] on a known opcode. *)
Ltac opcode_tests :=
  repeat match goal with
  | |- context [Z.eqb ?a ?b] =>
      destruct (Z.eqb_spec a b); [ try congruence | try congruence ]
  end.

(** ** Decoding one command *)

Section DecodeSteps.
Variable op : Opcodes.
Hypothesis Hop : opcodes_ok op = true.

Lemma decode_clk fuel n rest :
  decode_fuel op (S fuel) (CLK_BITS_NO_DATA op :: n :: rest)
  = cons_cmd (ClkBitsNoData n) (decode_fuel op fuel rest).
Proof. cbn [decode_fuel]. now rewrite Z.eqb_refl. Qed.

Lemma decode_set fuel v d rest :
  decode_fuel op (S fuel) (SET_BITS_LOW op :: v :: d :: rest)
  = cons_cmd (SetBitsLow v d) (decode_fuel op fuel rest).
Proof. opcode_facts Hop. cbn [decode_fuel]. opcode_tests; reflexivity. Qed.

Lemma decode_wbits fuel n d rest :
  decode_fuel op (S fuel) (WRITE_BITS_PVE_LSB op :: n :: d :: rest)
  = cons_cmd (WriteBitsLsb n d) (decode_fuel op fuel rest).
Proof. opcode_facts Hop. cbn [decode_fuel]. opcode_tests; reflexivity. Qed.

Lemma decode_wbyte fuel x rest :
  decode_fuel op (S fuel) (WRITE_BYTES_PVE_LSB op :: 0 :: 0 :: x :: rest)
  = cons_cmd (WriteBytesLsb [x]) (decode_fuel op fuel rest).
Proof. opcode_facts Hop. cbn [decode_fuel]. opcode_tests; reflexivity. Qed.

Lemma decode_rbyte fuel rest :
  decode_fuel op (S fuel) (READ_BYTES_PVE_LSB op :: 0 :: 0 :: rest)
  = cons_cmd (ReadBytesLsb 0) (decode_fuel op fuel rest).
Proof. opcode_facts Hop. cbn [decode_fuel]. opcode_tests; reflexivity. Qed.

Lemma decode_wait fuel rest :
  decode_fuel op (S fuel) (CLK_WAIT_ON_HIGH op :: rest)
  = cons_cmd ClkWaitOnHigh (decode_fuel op fuel rest).
Proof. opcode_facts Hop. cbn [decode_fuel]. opcode_tests; reflexivity. Qed.

Lemma decode_end fuel : decode_fuel op (S fuel) [] = Some [].
Proof. reflexivity. Qed.

End DecodeSteps.

(** Decodes a frame command by command. *)
Ltac decode_frame H :=
  unfold decode; cbn [List.length];
  repeat first
    [ rewrite decode_clk | rewrite (decode_set _ H) | rewrite (decode_wbits _ H)
    | rewrite (decode_wbyte _ H) | rewrite (decode_rbyte _ H)
    | rewrite (decode_wait _ H) | rewrite decode_end ];
  reflexivity.

(** ** The four frames *)

Section Frames.
Variable op : Opcodes.
Hypothesis Hop : opcodes_ok op = true.

Lemma write_addr_cmd_decode addr :
  decode op (write_addr_cmd op addr)
  = Some [ ClkBitsNoData 0; SetBitsLow 3 3; WriteBitsLsb 1 INS_WRITE_ADDR;
           WriteBytesLsb [addr]; SetBitsLow 3 1; ClkBitsNoData 0 ].
Proof. unfold write_addr_cmd. decode_frame Hop. Qed.

Lemma read_addr_cmd_decode :
  decode op (read_addr_cmd op)
  = Some [ ClkBitsNoData 0; SetBitsLow 3 3; WriteBitsLsb 1 INS_READ_ADDR;
           SetBitsLow 3 1; ReadBytesLsb 0; ClkBitsNoData 0 ].
Proof. unfold read_addr_cmd. decode_frame Hop. Qed.

Lemma write_data_byte_cmd_decode val :
  decode op (write_data_byte_cmd op val)
  = Some [ ClkBitsNoData 0; SetBitsLow 3 3; WriteBitsLsb 3 INS_WRITE_DATA;
           WriteBytesLsb [val]; SetBitsLow 3 1; ClkWaitOnHigh; ClkBitsNoData 0 ].
Proof. unfold write_data_byte_cmd. decode_frame Hop. Qed.


End Frames.

(** ** The output batcher on any transport *)

Section Batcher.
Context {T : Type} {api : Api T}.
Implicit Types (self : C2Controller T) (cmd buff : list Z).

Lemma sync_disconnected self :
  is_connected (_ftdi self) = false ->
  sync self = (Raise terminated, self).
Proof.
  intros Hc. unfold sync, bind, ftdi_connected. now rewrite Hc.
Qed.

Lemma sync_empty self :
  is_connected (_ftdi self) = true ->
  _write_buff self = [] ->
  sync self = (Ok tt, self).
Proof.
  intros Hc Hb. unfold sync, bind, ftdi_connected, get_write_buff.
  rewrite Hc. cbn [negb _write_buff]. rewrite Hb. reflexivity.
Qed.

(** On a non-empty buffer [sync] makes one [write_data] call with the
    whole buffer, and clears the buffer only if the call returns. *)
Lemma sync_nonempty self :
  is_connected (_ftdi self) = true ->
  _write_buff self <> [] ->
  sync self =
    match write_data (_write_buff self) (_ftdi self) with
    | (TOk _, t') => (Ok tt, mkC2 t' [])
    | (TFail why, t') => (Raise (FtdiError why), mkC2 t' (_write_buff self))
    end.
Proof.
  intros Hc Hb. unfold sync, bind, ftdi_connected, get_write_buff.
  rewrite Hc. cbn [negb].
  destruct (_write_buff self) as [|b buff] eqn:E; [congruence|].
  unfold ftdi_call, set_write_buff.
  destruct (write_data (b :: buff) (_ftdi self)) as [[u|why] t'];
    cbn [_write_buff _ftdi]; rewrite ?E; reflexivity.
Qed.


(** A returning [sync] leaves the buffer empty. *)
Lemma sync_ok_empties self self' :
  sync self = (Ok tt, self') ->
  _write_buff self' = [].
Proof.
  destruct (is_connected (_ftdi self)) eqn:Hc.
  - destruct (_write_buff self) as [|b buff] eqn:Hb.
    + rewrite sync_empty by assumption. now intros [= <-].
    + rewrite sync_nonempty by congruence. rewrite Hb.
      destruct (write_data (b :: buff) (_ftdi self)) as [[u|why] t'];
        intros [= <-]; reflexivity.
  - rewrite sync_disconnected by assumption. discriminate.
Qed.

(** Below the threshold [_stack_cmd] only appends: the transport is not
    touched. *)
Lemma stack_cmd_below self cmd :
  py_len (_write_buff self) + py_len cmd + 1 < FTDI_PIPE_LEN ->
  _stack_cmd (PyByteArray cmd) self
  = (Ok tt, mkC2 (_ftdi self) (_write_buff self ++ cmd)).
Proof.
  intros Hlt. unfold _stack_cmd, bind, get_ftdi, get_write_buff, set_write_buff.
  cbn [isinstance_bytes negb ftdi_truth py_bytes _write_buff _ftdi].
  destruct (Z.geb_spec (py_len (_write_buff self) + py_len cmd + 1) FTDI_PIPE_LEN);
    [lia|]. reflexivity.
Qed.

(** At the threshold [_stack_cmd] runs [sync] first and appends to what
    [sync] left, if [sync] returns. *)
Lemma stack_cmd_at self cmd :
  py_len (_write_buff self) + py_len cmd + 1 >= FTDI_PIPE_LEN ->
  _stack_cmd (PyByteArray cmd) self =
    match sync self with
    | (Ok _, self') => (Ok tt, mkC2 (_ftdi self') (_write_buff self' ++ cmd))
    | (Raise e, self') => (Raise e, self')
    end.
Proof.
  intros Hge. unfold _stack_cmd, bind at 1 2, get_ftdi, get_write_buff.
  cbn [isinstance_bytes negb ftdi_truth py_bytes _write_buff _ftdi].
  destruct (Z.geb_spec (py_len (_write_buff self) + py_len cmd + 1) FTDI_PIPE_LEN);
    [|lia].
  unfold bind, set_write_buff. destruct (sync self) as [[u|e] self']; reflexivity.
Qed.


End Batcher.

(** ** The output batcher, observed through a recording transport *)

Section Recorded.
Context {T : Type} {api : Api T}.
Implicit Types (self : C2Controller (Spy T)) (cmd buff : list Z).

Lemma py_len_app buff cmd : py_len (buff ++ cmd) = py_len buff + py_len cmd.
Proof. unfold py_len. rewrite length_app. lia. Qed.

Lemma py_len_nil : py_len [] = 0.
Proof. reflexivity. Qed.

(** [sync] on a non-empty buffer: one call is recorded, a write of the
    whole buffer. *)
Lemma spy_sync_nonempty self :
  is_connected (_ftdi self) = true ->
  _write_buff self <> [] ->
  sync self =
    match write_data (_write_buff self) (inner (_ftdi self)) with
    | (TOk _, t') =>
        (Ok tt, mkC2 (mkSpy t' (sent self ++ [CallWrite (_write_buff self)])) [])
    | (TFail why, t') =>
        (Raise (FtdiError why),
         mkC2 (mkSpy t' (sent self ++ [CallWrite (_write_buff self)])) (_write_buff self))
    end.
Proof.
  intros Hc Hb. rewrite sync_nonempty by assumption.
  cbn [write_data spy_api]. unfold record, sent.
  destruct (write_data (_write_buff self) (inner (_ftdi self))) as [[[]|why] t'];
    reflexivity.
Qed.

(** Frames that together stay below the threshold are appended one after
    another, and the transport is not touched. *)
Lemma enqueue_all_below frames : forall self,
  py_len (_write_buff self) + py_len (concat frames) + 1 < FTDI_PIPE_LEN ->
  enqueue_all frames self
  = (Ok tt, mkC2 (_ftdi self) (_write_buff self ++ concat frames)).
Proof.
  induction frames as [|f frames IH]; intros self Hlt.
  - cbn. rewrite app_nil_r. now destruct self.
  - cbn [enqueue_all concat] in *. rewrite py_len_app in Hlt.
    assert (0 <= py_len (concat frames)) by (unfold py_len; lia).
    unfold bind. rewrite stack_cmd_below by lia.
    rewrite IH; cbn [_write_buff _ftdi].
    + now rewrite <- app_assoc.
    + rewrite py_len_app. lia.
Qed.

End Recorded.

(** ** Flush policy of the batcher *)

Section FlushPolicy.
Context {T : Type} {api : Api T}.
Implicit Types (self : C2Controller (Spy T)) (cmd buff : list Z).

(** C7. On a connected transport [sync] returns at once, changing
    nothing, when the pending buffer is empty; on a non-empty buffer it
    makes exactly one transport call, a write of the whole buffer, and
    leaves the buffer empty once the write has returned.  Frames enqueued
    into an empty buffer reach the transport as their concatenation in
    enqueue order, in that single write. *)
Theorem sync_hands_over_whole_buffer self :
  is_connected (_ftdi self) = true ->
  (_write_buff self = [] -> sync self = (Ok tt, self))
  /\ (forall t',
        _write_buff self <> [] ->
        write_data (_write_buff self) (inner (_ftdi self)) = (TOk tt, t') ->
        sync self
        = (Ok tt, mkC2 (mkSpy t' (sent self ++ [CallWrite (_write_buff self)])) []))
  /\ (forall frames t',
        _write_buff self = [] ->
        concat frames <> [] ->
        py_len (concat frames) + 1 < FTDI_PIPE_LEN ->
        write_data (concat frames) (inner (_ftdi self)) = (TOk tt, t') ->
        bind (enqueue_all frames) (fun _ => sync) self
        = (Ok tt, mkC2 (mkSpy t' (sent self ++ [CallWrite (concat frames)])) [])).
Proof.
  intros Hc. split; [|split].
  - intros Hb. now apply sync_empty.
  - intros t' Hb Hw. rewrite spy_sync_nonempty by assumption. now rewrite Hw.
  - intros frames t' Hb Hne Hlt Hw. unfold bind.
    rewrite enqueue_all_below by (rewrite Hb, py_len_nil; lia).
    rewrite Hb. cbn [app].
    rewrite spy_sync_nonempty by assumption.
    cbn [_write_buff _ftdi]. now rewrite Hw.
Qed.

(** Enqueuing a frame shorter than 511 bytes on a connected transport:
    below the threshold the frame is appended and the transport is not
    called; at the threshold the whole pending buffer goes out as one
    write, the buffer is empty after that flush and holds only the new
    frame after the append. *)
Lemma stack_cmd_policy_short self cmd :
  is_connected (_ftdi self) = true ->
  (List.length cmd < 511)%nat ->
  (py_len (_write_buff self) + py_len cmd + 1 < FTDI_PIPE_LEN ->
     _stack_cmd (PyByteArray cmd) self
     = (Ok tt, mkC2 (_ftdi self) (_write_buff self ++ cmd)))
  /\ (forall t',
        py_len (_write_buff self) + py_len cmd + 1 >= FTDI_PIPE_LEN ->
        write_data (_write_buff self) (inner (_ftdi self)) = (TOk tt, t') ->
        let flushed := mkSpy t' (sent self ++ [CallWrite (_write_buff self)]) in
        sync self = (Ok tt, mkC2 flushed [])
        /\ _stack_cmd (PyByteArray cmd) self = (Ok tt, mkC2 flushed cmd)
        /\ py_len [] + py_len cmd + 1 < FTDI_PIPE_LEN).
Proof.
  intros Hc Hlen. split.
  - apply stack_cmd_below.
  - intros t' Hge Hw flushed.
    assert (Hcmd : py_len cmd < 511) by (unfold py_len; lia).
    assert (Hb : _write_buff self <> []).
    { intros E. rewrite E, py_len_nil in Hge. unfold FTDI_PIPE_LEN in Hge. lia. }
    assert (Hs : sync self = (Ok tt, mkC2 flushed [])).
    { rewrite spy_sync_nonempty by assumption. now rewrite Hw. }
    split; [exact Hs|]. split.
    + rewrite stack_cmd_at by assumption. now rewrite Hs.
    + rewrite py_len_nil. unfold FTDI_PIPE_LEN. lia.
Qed.

End FlushPolicy.

Section TransactionFrames.
Variable op : Opcodes.
Context {T : Type} {api : Api T}.
Implicit Types (self : C2Controller (Spy T)) (cmd : list Z).

Lemma transaction_frame_short cmd :
  transaction_frame op cmd -> (List.length cmd < 511)%nat.
Proof. intros [addr| |val|]; cbn; lia. Qed.

(** C1. For every frame the transactions enqueue, from any state of the
    controller: below the threshold (buffer length plus frame length plus
    one under 512) the frame is appended and the transport is not called,
    so no flush occurs; at or above it, on a connected transport that
    accepts the write, exactly one flush occurs before the append (the
    whole pending buffer as one write), the buffer is empty right after
    the flush and holds only the new frame right after the append.
    Either way the buffer appended to, the frame and the reserved byte
    together stay under 512. *)
Theorem stack_cmd_flush_policy self cmd :
  transaction_frame op cmd ->
  (py_len (_write_buff self) + py_len cmd + 1 < FTDI_PIPE_LEN ->
     _stack_cmd (PyByteArray cmd) self
     = (Ok tt, mkC2 (_ftdi self) (_write_buff self ++ cmd)))
  /\ (forall t',
        py_len (_write_buff self) + py_len cmd + 1 >= FTDI_PIPE_LEN ->
        is_connected (_ftdi self) = true ->
        write_data (_write_buff self) (inner (_ftdi self)) = (TOk tt, t') ->
        let flushed := mkSpy t' (sent self ++ [CallWrite (_write_buff self)]) in
        sync self = (Ok tt, mkC2 flushed [])
        /\ _stack_cmd (PyByteArray cmd) self = (Ok tt, mkC2 flushed cmd)
        /\ py_len [] + py_len cmd + 1 < FTDI_PIPE_LEN).
Proof.
  intros Hframe. apply transaction_frame_short in Hframe. split.
  - apply stack_cmd_below.
  - intros t' Hge Hc Hw.
    now apply (proj2 (stack_cmd_policy_short self cmd Hc Hframe)).
Qed.

End TransactionFrames.

(** C1 at a buffer of 500 bytes and the frame of [write_addr(5)]: one
    write of the 500 bytes, then the buffer holds the frame alone. *)
Lemma stack_cmd_flush_policy_witness :
  _stack_cmd (PyByteArray (write_addr_cmd pyftdi_opcodes 5))
    (stub_controller true [] (repeat 0 500))
  = (Ok tt, mkC2 (mkSpy (mkStub true []) [CallWrite (repeat 0 500)])
                 (write_addr_cmd pyftdi_opcodes 5)).
Proof.
  refine (proj1 (proj2 (proj2
    (stack_cmd_flush_policy pyftdi_opcodes (stub_controller true [] (repeat 0 500))
       (write_addr_cmd pyftdi_opcodes 5) (tf_write_addr pyftdi_opcodes 5))
    (mkStub true []) _ eq_refl eq_refl))).
  vm_compute. discriminate.
Defined.

(** C7 at a buffer of three bytes on an open port. *)
Lemma sync_hands_over_whole_buffer_witness :
  sync (stub_controller true [] [1; 2; 3])
  = (Ok tt, mkC2 (mkSpy (mkStub true []) [CallWrite [1; 2; 3]]) []).
Proof.
  refine (proj1 (proj2
    (sync_hands_over_whole_buffer (stub_controller true [] [1; 2; 3]) eq_refl))
    (mkStub true []) _ eq_refl).
  discriminate.
Defined.

(** ** What the write transactions enqueue *)

Section Encoding.
Variable op : Opcodes.
Hypothesis Hop : opcodes_ok op = true.

Lemma bytearray_ok xs : forallb is_byte xs = true -> bytearray xs = Ok xs.
Proof. intros H. unfold bytearray. now rewrite H. Qed.

(** Settles [forallb is_byte] on a frame whose variable items are known
    bytes. *)
Ltac frame_bytes :=
  opcode_facts Hop; cbn [forallb];
  rewrite !andb_true_iff; repeat split;
  try reflexivity; apply is_byte_range; (assumption || lia).

Lemma write_addr_cmd_bytes addr :
  0 <= addr <= 255 -> forallb is_byte (write_addr_cmd op addr) = true.
Proof. intros Ha. unfold write_addr_cmd. frame_bytes. Qed.

Lemma write_data_byte_cmd_bytes val :
  0 <= val <= 255 -> forallb is_byte (write_data_byte_cmd op val) = true.
Proof. intros Hv. unfold write_data_byte_cmd. frame_bytes. Qed.

Lemma read_addr_cmd_bytes : forallb is_byte (read_addr_cmd op) = true.
Proof. unfold read_addr_cmd. frame_bytes. Qed.

Lemma read_data_byte_cmd_bytes : forallb is_byte (read_data_byte_cmd op) = true.
Proof. unfold read_data_byte_cmd. frame_bytes. Qed.

Context {T : Type} {api : Api T}.
Implicit Types (self : C2Controller T).

Lemma write_addr_enqueues self addr :
  0 <= addr <= 255 ->
  py_len (_write_buff self) + py_len (write_addr_cmd op addr) + 1 < FTDI_PIPE_LEN ->
  write_addr op addr self
  = (Ok tt, mkC2 (_ftdi self) (_write_buff self ++ write_addr_cmd op addr)).
Proof.
  intros Ha Hlt. unfold write_addr, bind, lift.
  rewrite bytearray_ok by now apply write_addr_cmd_bytes.
  now apply stack_cmd_below.
Qed.

Lemma write_data_byte_enqueues self val :
  0 <= val <= 255 ->
  py_len (_write_buff self) + py_len (write_data_byte_cmd op val) + 1 < FTDI_PIPE_LEN ->
  write_data_byte op val self
  = (Ok tt, mkC2 (_ftdi self) (_write_buff self ++ write_data_byte_cmd op val)).
Proof.
  intros Hv Hlt. unfold write_data_byte, bind, lift.
  rewrite bytearray_ok by now apply write_data_byte_cmd_bytes.
  now apply stack_cmd_below.
Qed.

(** C2. For a byte [addr], [write_addr] enqueues a frame of 17 bytes,
    whatever [addr] is; read as MPSSE commands, the frame writes the
    instruction 3 (WriteAddress) with an LSB-first bit write of count
    field 1, and right after it the single byte [addr] with an LSB-first
    byte write. *)
Theorem write_addr_frame self addr :
  0 <= addr <= 255 ->
  let frame := write_addr_cmd op addr in
  (py_len (_write_buff self) + py_len frame + 1 < FTDI_PIPE_LEN ->
     write_addr op addr self = (Ok tt, mkC2 (_ftdi self) (_write_buff self ++ frame)))
  /\ List.length frame = 17%nat
  /\ decode op frame
     = Some [ ClkBitsNoData 0; SetBitsLow 3 3;
              WriteBitsLsb 1 INS_WRITE_ADDR; WriteBytesLsb [addr];
              SetBitsLow 3 1; ClkBitsNoData 0 ].
Proof.
  intros Ha frame. split; [|split].
  - now apply write_addr_enqueues.
  - reflexivity.
  - now apply write_addr_cmd_decode.
Qed.

(** C3. For a byte [val], [write_data_byte] enqueues a frame of 18 bytes,
    longer than the 17 bytes of every [write_addr] frame; the frame writes
    the instruction 1 (WriteData) with a bit write of count field 3 and
    holds exactly one WAIT command, while the frames of [write_addr] and
    [read_addr] hold none. *)
Theorem write_data_byte_frame self val :
  0 <= val <= 255 ->
  let frame := write_data_byte_cmd op val in
  (py_len (_write_buff self) + py_len frame + 1 < FTDI_PIPE_LEN ->
     write_data_byte op val self
     = (Ok tt, mkC2 (_ftdi self) (_write_buff self ++ frame)))
  /\ List.length frame = 18%nat
  /\ (forall addr, (List.length (write_addr_cmd op addr) < List.length frame)%nat)
  /\ decode op frame
     = Some [ ClkBitsNoData 0; SetBitsLow 3 3;
              WriteBitsLsb 3 INS_WRITE_DATA; WriteBytesLsb [val];
              SetBitsLow 3 1; ClkWaitOnHigh; ClkBitsNoData 0 ]
  /\ frame_waits op frame = Some 1%nat
  /\ (forall addr, frame_waits op (write_addr_cmd op addr) = Some 0%nat)
  /\ frame_waits op (read_addr_cmd op) = Some 0%nat.
Proof.
  intros Hv frame. repeat split.
  - now apply write_data_byte_enqueues.
  - intros addr. cbn. lia.
  - now apply write_data_byte_cmd_decode.
  - unfold frame_waits, frame. now rewrite write_data_byte_cmd_decode.
  - intros addr. unfold frame_waits. now rewrite write_addr_cmd_decode.
  - unfold frame_waits. now rewrite read_addr_cmd_decode.
Qed.

(** C9. The frame [write_data_byte(0x42)] enqueues into an empty buffer
    decodes back to the instruction 1 (WriteData) and the payload byte
    0x42. *)
Theorem write_data_byte_round_trip self :
  _write_buff self = [] ->
  exists self',
    write_data_byte op 0x42 self = (Ok tt, self')
    /\ decode_write op (_write_buff self') = Some (INS_WRITE_DATA, [0x42]).
Proof.
  intros Hb. eexists. split.
  - rewrite write_data_byte_enqueues; [reflexivity | lia | rewrite Hb; reflexivity].
  - cbn [_write_buff]. rewrite Hb. cbn [app].
    unfold decode_write. now rewrite write_data_byte_cmd_decode.
Qed.

End Encoding.

(** C2 at address 5, pyftdi's opcodes and a fresh controller. *)
Lemma write_addr_frame_witness :
  write_addr pyftdi_opcodes 5 (stub_controller true [] [])
  = (Ok tt, stub_controller true []
              [0x8e; 0; 0x80; 3; 3; 0x1a; 1; 3; 0x18; 0; 0; 5; 0x80; 3; 1; 0x8e; 0])
  /\ decode pyftdi_opcodes (write_addr_cmd pyftdi_opcodes 5)
     = Some [ ClkBitsNoData 0; SetBitsLow 3 3;
              WriteBitsLsb 1 3; WriteBytesLsb [5];
              SetBitsLow 3 1; ClkBitsNoData 0 ].
Proof.
  pose proof (write_addr_frame pyftdi_opcodes eq_refl (stub_controller true [] []) 5
                ltac:(lia)) as [Henq [_ Hdec]].
  split; [apply Henq; reflexivity | exact Hdec].
Defined.

(** C3 at the byte 0x42, pyftdi's opcodes and a fresh controller. *)
Lemma write_data_byte_frame_witness :
  List.length (write_data_byte_cmd pyftdi_opcodes 0x42) = 18%nat
  /\ frame_waits pyftdi_opcodes (write_data_byte_cmd pyftdi_opcodes 0x42) = Some 1%nat
  /\ frame_waits pyftdi_opcodes (read_addr_cmd pyftdi_opcodes) = Some 0%nat.
Proof.
  pose proof (write_data_byte_frame pyftdi_opcodes eq_refl (stub_controller true [] [])
                0x42 ltac:(lia)) as [_ [Hlen [_ [_ [Hw [_ Hr]]]]]].
  repeat split; assumption.
Defined.

(** C9 at pyftdi's opcodes and a fresh controller. *)
Lemma write_data_byte_round_trip_witness :
  exists self',
    write_data_byte pyftdi_opcodes 0x42 (stub_controller true [] []) = (Ok tt, self')
    /\ decode_write pyftdi_opcodes (_write_buff self') = Some (1, [0x42]).
Proof.
  exact (write_data_byte_round_trip pyftdi_opcodes eq_refl
           (stub_controller true [] []) eq_refl).
Defined.

(** ** Read transactions *)

Section Reads.
Variable op : Opcodes.
Hypothesis Hop : opcodes_ok op = true.
Context {T : Type} {api : Api T}.
Implicit Types (self : C2Controller (Spy T)) (frame buff : list Z).

Lemma read_addr_unfold self :
  read_addr op self = read_tail (read_addr_cmd op) self.
Proof.
  unfold read_addr, read_tail, bind at 1, lift at 1.
  now rewrite bytearray_ok by now apply read_addr_cmd_bytes.
Qed.

Lemma read_data_byte_unfold self :
  read_data_byte op self = read_tail (read_data_byte_cmd op) self.
Proof.
  unfold read_data_byte, read_tail, bind at 1, lift at 1.
  now rewrite bytearray_ok by now apply read_data_byte_cmd_bytes.
Qed.

Lemma read_flushes_concat buff frame :
  concat (read_flushes buff frame) = buff ++ frame.
Proof.
  unfold read_flushes.
  destruct (py_len buff + py_len frame + 1 >=? FTDI_PIPE_LEN); cbn;
    now rewrite ?app_nil_r.
Qed.

(** The single read call, after the writes have gone out. *)
Lemma spy_read self :
  bind (ftdi_call (read_data_bytes 1 4)) (fun data => lift (first_byte data)) self
  = let '(r, t') := read_data_bytes 1 4 (inner (_ftdi self)) in
    (match r with
     | TOk data => first_byte data
     | TFail why => Raise (FtdiError why)
     end,
     mkC2 (mkSpy t' (sent self ++ [CallRead 1 4])) (_write_buff self)).
Proof.
  unfold bind, ftdi_call, lift, sent. cbn [read_data_bytes spy_api]. unfold record.
  destruct (read_data_bytes 1 4 (inner (_ftdi self))) as [[data|why] t']; reflexivity.
Qed.

(** A read transaction on a port that accepts its flushes: the pending
    bytes and the frame are written, then one read of (1, 4) is made, and
    the answer is the first byte of the reply. *)
Lemma read_tail_run self frame :
  frame <> [] ->
  py_len frame + 1 < FTDI_PIPE_LEN ->
  let ws := read_flushes (_write_buff self) frame in
  flushes_ok ws (inner (_ftdi self)) = true ->
  read_tail frame self
  = let '(r, t') := read_data_bytes 1 4 (after_writes ws (inner (_ftdi self))) in
    (match r with
     | TOk data => first_byte data
     | TFail why => Raise (FtdiError why)
     end,
     mkC2 (mkSpy t' (sent self ++ map CallWrite ws ++ [CallRead 1 4])) []).
Proof.
  intros Hne Hfit ws Hok. subst ws. unfold read_flushes in *.
  destruct (Z.geb_spec (py_len (_write_buff self) + py_len frame + 1) FTDI_PIPE_LEN)
    as [Hge|Hlt].
  - (* the frame does not fit: flush, append, flush again *)
    assert (Hb : _write_buff self <> []).
    { intros E. rewrite E, py_len_nil in Hge. lia. }
    cbn [flushes_ok] in Hok. cbn [after_writes map app].
    destruct (write_data (_write_buff self) (inner (_ftdi self))) as [r1 t1] eqn:W1.
    cbn [fst snd] in Hok |- *.
    destruct (write_data frame t1) as [r2 t2] eqn:W2. cbn [fst snd] in Hok |- *.
    split_bools. destruct r1 as [[]|]; [|discriminate]. destruct r2 as [[]|]; [|discriminate].
    unfold read_tail. unfold bind at 1.
    rewrite stack_cmd_at by lia.
    rewrite spy_sync_nonempty by assumption. rewrite W1. cbn [_ftdi _write_buff app].
    unfold bind at 1.
    rewrite spy_sync_nonempty by (cbn; assumption).
    cbn [_ftdi _write_buff inner]. rewrite W2.
    rewrite spy_read. cbn [_ftdi _write_buff inner]. unfold sent. cbn [_ftdi calls].
    destruct (read_data_bytes 1 4 t2) as [r t']. now rewrite <- !app_assoc.
  - (* the frame fits: append, then one flush of everything *)
    cbn [flushes_ok] in Hok. cbn [after_writes map app].
    destruct (write_data (_write_buff self ++ frame) (inner (_ftdi self)))
      as [r1 t1] eqn:W1.
    cbn [fst snd] in Hok |- *. split_bools. destruct r1 as [[]|]; [|discriminate].
    unfold read_tail. unfold bind at 1.
    rewrite stack_cmd_below by lia.
    unfold bind at 1.
    rewrite spy_sync_nonempty.
    + cbn [_ftdi _write_buff inner]. rewrite W1.
      rewrite spy_read. cbn [_ftdi _write_buff inner]. unfold sent. cbn [_ftdi calls].
      destruct (read_data_bytes 1 4 t1) as [r t']. now rewrite <- !app_assoc.
    + assumption.
    + cbn [_write_buff]. intros E. apply app_eq_nil in E. tauto.
Qed.

End Reads.

Section ReadClaims.
Variable op : Opcodes.
Hypothesis Hop : opcodes_ok op = true.
Context {T : Type} {api : Api T}.
Implicit Types (self : C2Controller (Spy T)).

Lemma read_addr_run self :
  let ws := read_flushes (_write_buff self) (read_addr_cmd op) in
  flushes_ok ws (inner (_ftdi self)) = true ->
  read_addr op self
  = let '(r, t') := read_data_bytes 1 4 (after_writes ws (inner (_ftdi self))) in
    (match r with
     | TOk data => first_byte data
     | TFail why => Raise (FtdiError why)
     end,
     mkC2 (mkSpy t' (sent self ++ map CallWrite ws ++ [CallRead 1 4])) []).
Proof.
  intros ws Hok. rewrite read_addr_unfold by assumption.
  apply read_tail_run; [discriminate | reflexivity | exact Hok].
Qed.

Lemma read_data_byte_run self :
  let ws := read_flushes (_write_buff self) (read_data_byte_cmd op) in
  flushes_ok ws (inner (_ftdi self)) = true ->
  read_data_byte op self
  = let '(r, t') := read_data_bytes 1 4 (after_writes ws (inner (_ftdi self))) in
    (match r with
     | TOk data => first_byte data
     | TFail why => Raise (FtdiError why)
     end,
     mkC2 (mkSpy t' (sent self ++ map CallWrite ws ++ [CallRead 1 4])) []).
Proof.
  intros ws Hok. rewrite read_data_byte_unfold by assumption.
  apply read_tail_run; [discriminate | reflexivity | exact Hok].
Qed.

(** C4. On a port that is connected and accepts the writes, [read_addr]
    and [read_data_byte] first hand every pending byte and then their own
    frame to the transport (the recorded writes concatenate to the old
    buffer followed by the frame), then make exactly one read call, with
    arguments (1, 4), and return the first byte of its reply; the buffer
    is empty afterwards. *)
Theorem read_flushes_then_reads_once self :
  (forall ws b rest t',
     ws = read_flushes (_write_buff self) (read_addr_cmd op) ->
     flushes_ok ws (inner (_ftdi self)) = true ->
     read_data_bytes 1 4 (after_writes ws (inner (_ftdi self))) = (TOk (b :: rest), t') ->
     concat ws = _write_buff self ++ read_addr_cmd op
     /\ read_addr op self
        = (Ok b, mkC2 (mkSpy t' (sent self ++ map CallWrite ws ++ [CallRead 1 4])) []))
  /\ (forall ws b rest t',
     ws = read_flushes (_write_buff self) (read_data_byte_cmd op) ->
     flushes_ok ws (inner (_ftdi self)) = true ->
     read_data_bytes 1 4 (after_writes ws (inner (_ftdi self))) = (TOk (b :: rest), t') ->
     concat ws = _write_buff self ++ read_data_byte_cmd op
     /\ read_data_byte op self
        = (Ok b, mkC2 (mkSpy t' (sent self ++ map CallWrite ws ++ [CallRead 1 4])) [])).
Proof.
  split; intros ws b rest t' -> Hok Hr; (split; [apply read_flushes_concat|]).
  - rewrite read_addr_run by assumption. now rewrite Hr.
  - rewrite read_data_byte_run by assumption. now rewrite Hr.
Qed.

(** C10. On a port that is connected and accepts the writes, a read
    transaction whose transport read answers with no byte at all raises
    IndexError (none of C2Error, TypeError, FtdiError), after the flush
    and the read have been made; and whenever a read transaction returns a
    value, the reply was non-empty and the value is its first byte. *)
Theorem read_needs_nonempty_reply self :
  (forall ws t',
     ws = read_flushes (_write_buff self) (read_addr_cmd op) ->
     flushes_ok ws (inner (_ftdi self)) = true ->
     (read_data_bytes 1 4 (after_writes ws (inner (_ftdi self))) = (TOk [], t') ->
      read_addr op self
      = (Raise (IndexError "bytearray index out of range"%string),
         mkC2 (mkSpy t' (sent self ++ map CallWrite ws ++ [CallRead 1 4])) []))
     /\ (forall v self', read_addr op self = (Ok v, self') ->
         exists rest t'',
           read_data_bytes 1 4 (after_writes ws (inner (_ftdi self)))
           = (TOk (v :: rest), t'')))
  /\ (forall ws t',
     ws = read_flushes (_write_buff self) (read_data_byte_cmd op) ->
     flushes_ok ws (inner (_ftdi self)) = true ->
     (read_data_bytes 1 4 (after_writes ws (inner (_ftdi self))) = (TOk [], t') ->
      read_data_byte op self
      = (Raise (IndexError "bytearray index out of range"%string),
         mkC2 (mkSpy t' (sent self ++ map CallWrite ws ++ [CallRead 1 4])) []))
     /\ (forall v self', read_data_byte op self = (Ok v, self') ->
         exists rest t'',
           read_data_bytes 1 4 (after_writes ws (inner (_ftdi self)))
           = (TOk (v :: rest), t''))).
Proof.
  split; intros ws t' -> Hok.
  - rewrite read_addr_run by assumption. split.
    + intros Hr. now rewrite Hr.
    + intros v self'.
      destruct (read_data_bytes 1 4 _) as [[[|b rest]|why] t'']; cbn [first_byte];
        intros [= E _]; subst; eauto.
  - rewrite read_data_byte_run by assumption. split.
    + intros Hr. now rewrite Hr.
    + intros v self'.
      destruct (read_data_bytes 1 4 _) as [[[|b rest]|why] t'']; cbn [first_byte];
        intros [= E _]; subst; eauto.
Qed.

End ReadClaims.

(** C4 on an open port with five pending bytes and the scripted reply
    [0xa5; 0]. *)
Lemma read_flushes_then_reads_once_witness :
  read_addr pyftdi_opcodes (stub_controller true [[0xa5; 0]] [1; 2; 3; 4; 5])
  = (Ok 0xa5,
     mkC2 (mkSpy (mkStub true [])
             [CallWrite ([1; 2; 3; 4; 5] ++ read_addr_cmd pyftdi_opcodes); CallRead 1 4])
          []).
Proof.
  exact (proj2 (proj1 (read_flushes_then_reads_once pyftdi_opcodes eq_refl
           (stub_controller true [[0xa5; 0]] [1; 2; 3; 4; 5]))
           _ 0xa5 [0] (mkStub true []) eq_refl eq_refl eq_refl)).
Defined.

(** C10 on an open port whose script is used up: the read answers with
    nothing. *)
Lemma read_needs_nonempty_reply_witness :
  read_data_byte pyftdi_opcodes (stub_controller true [] [])
  = (Raise (IndexError "bytearray index out of range"%string),
     mkC2 (mkSpy (mkStub true [])
             [CallWrite (read_data_byte_cmd pyftdi_opcodes); CallRead 1 4])
          []).
Proof.
  exact (proj1 (proj2 (read_needs_nonempty_reply pyftdi_opcodes eq_refl
           (stub_controller true [] []))
           _ (mkStub true []) eq_refl eq_refl) eq_refl).
Defined.

(** ** Reset *)

Section Reset.
Variable op : Opcodes.
Hypothesis Hop : opcodes_ok op = true.
Context {T : Type} {api : Api T}.
Implicit Types (self : C2Controller (Spy T)).

(** One direct write on the recorded transport. *)
Lemma spy_write self data :
  ftdi_call (write_data data) self
  = let '(r, t') := write_data data (inner (_ftdi self)) in
    (match r with
     | TOk _ => Ok tt
     | TFail why => Raise (FtdiError why)
     end,
     mkC2 (mkSpy t' (sent self ++ [CallWrite data])) (_write_buff self)).
Proof.
  unfold ftdi_call, sent. cbn [write_data spy_api]. unfold record.
  destruct (write_data data (inner (_ftdi self))) as [[[]|why] t']; reflexivity.
Qed.

Lemma reset_cmds_bytes :
  bytearray (reset_low_cmd op) = Ok (reset_low_cmd op)
  /\ bytearray (reset_high_cmd op) = Ok (reset_high_cmd op).
Proof.
  split; apply bytearray_ok; opcode_facts Hop; cbn [forallb reset_low_cmd reset_high_cmd];
    rewrite !andb_true_iff; repeat split; try reflexivity;
    apply is_byte_range; assumption.
Qed.

(** The two pulses, once the pending buffer is out of the way. *)
Lemma reset_pulses self :
  _write_buff self = [] ->
  is_connected (_ftdi self) = true ->
  let ws := [reset_low_cmd op; reset_high_cmd op] in
  writes_ok ws (inner (_ftdi self)) = true ->
  reset op self
  = (Ok tt, mkC2 (mkSpy (after_writes ws (inner (_ftdi self)))
                         (sent self ++ map CallWrite ws)) []).
Proof.
  intros Hb Hc ws Hok. subst ws. destruct reset_cmds_bytes as [Hlow Hhigh].
  unfold reset, bind at 1, ftdi_connected. rewrite Hc. cbn [negb].
  unfold bind at 1. rewrite sync_empty by assumption.
  unfold bind at 1, lift at 1. rewrite Hlow.
  cbn [writes_ok after_writes map app] in *.
  destruct (write_data (reset_low_cmd op) (inner (_ftdi self))) as [r1 t1] eqn:W1.
  cbn [fst snd] in *.
  destruct (write_data (reset_high_cmd op) t1) as [r2 t2] eqn:W2. cbn [fst snd] in *.
  split_bools. destruct r1 as [[]|]; [|discriminate]. destruct r2 as [[]|]; [|discriminate].
  unfold bind at 1. rewrite spy_write, W1.
  unfold bind at 1, lift at 1. rewrite Hhigh.
  rewrite spy_write. cbn [_ftdi inner _write_buff]. rewrite W2.
  unfold sent. cbn [_ftdi calls]. now rewrite Hb, <- app_assoc.
Qed.

(** C6. Disconnected, [reset] raises the "terminated" C2Error and leaves
    controller and transport untouched.  Connected, on a port that accepts
    the writes, it first writes the pending buffer (if any) and then makes
    exactly two more writes; each is one set-low-byte command whose value
    byte has the data-output bit set, the clock bit clear in the first and
    set in the second. *)
Theorem reset_pulse self :
  (is_connected (_ftdi self) = false -> reset op self = (Raise terminated, self))
  /\ (forall ws,
        is_connected (_ftdi self) = true ->
        ws = pending_flush (_write_buff self) ++ [reset_low_cmd op; reset_high_cmd op] ->
        writes_ok ws (inner (_ftdi self)) = true ->
        reset op self
        = (Ok tt, mkC2 (mkSpy (after_writes ws (inner (_ftdi self)))
                               (sent self ++ map CallWrite ws)) []))
  /\ (exists low high,
        decode op (reset_low_cmd op) = Some [SetBitsLow low CK_BIT]
        /\ decode op (reset_high_cmd op) = Some [SetBitsLow high CK_BIT]
        /\ Z.land low CK_BIT = 0 /\ Z.land high CK_BIT = CK_BIT
        /\ Z.land low D_O_BIT = D_O_BIT /\ Z.land high D_O_BIT = D_O_BIT).
Proof.
  split; [|split].
  - intros Hc. unfold reset, bind, ftdi_connected. now rewrite Hc.
  - intros ws Hc -> Hok.
    destruct (_write_buff self) as [|b buff] eqn:Hb; cbn [pending_flush app] in *.
    + apply reset_pulses; assumption.
    + (* a pending buffer: [sync] writes it, then the pulses follow *)
      cbn [writes_ok after_writes map] in *.
      destruct (write_data (b :: buff) (inner (_ftdi self))) as [r0 t0] eqn:W0.
      cbn [fst snd] in *. apply andb_true_iff in Hok. destruct Hok as [H0 Hok].
      destruct r0 as [[]|]; [|discriminate].
      assert (Hs : sync self = (Ok tt, mkC2 (mkSpy t0 (sent self ++ [CallWrite (b :: buff)])) [])).
      { rewrite spy_sync_nonempty by (rewrite ?Hb; congruence). now rewrite Hb, W0. }
      unfold reset, bind at 1, ftdi_connected. rewrite Hc. cbn [negb].
      unfold bind at 1. rewrite Hs.
      destruct reset_cmds_bytes as [Hlow Hhigh].
      unfold bind at 1, lift at 1. rewrite Hlow.
      destruct (write_data (reset_low_cmd op) t0) as [r1 t1] eqn:W1. cbn [fst snd] in *.
      destruct (write_data (reset_high_cmd op) t1) as [r2 t2] eqn:W2. cbn [fst snd] in *.
      split_bools. destruct r1 as [[]|]; [|discriminate]. destruct r2 as [[]|]; [|discriminate].
      unfold bind at 1. rewrite spy_write. cbn [_ftdi inner _write_buff]. rewrite W1.
      unfold bind at 1, lift at 1. rewrite Hhigh.
      rewrite spy_write. cbn [_ftdi inner _write_buff]. rewrite W2.
      unfold sent. cbn [_ftdi calls]. now rewrite <- !app_assoc.
  - exists (Z.lor 0 D_O_BIT), (Z.lor CK_BIT D_O_BIT). repeat split.
    + unfold reset_low_cmd. decode_frame Hop.
    + unfold reset_high_cmd. decode_frame Hop.
Qed.

End Reset.

(** C6 on an open port with two pending bytes: the buffer goes out, then
    the two pulses. *)
Lemma reset_pulse_witness :
  reset pyftdi_opcodes (stub_controller true [] [7; 9])
  = (Ok tt, mkC2 (mkSpy (mkStub true [])
                    [CallWrite [7; 9]; CallWrite [0x80; 2; 1]; CallWrite [0x80; 3; 1]])
                 []).
Proof.
  exact (proj1 (proj2 (reset_pulse pyftdi_opcodes eq_refl (stub_controller true [] [7; 9])))
           _ eq_refl eq_refl eq_refl).
Defined.

(** ** After close, and on failure *)

Section Disconnected.
Variable op : Opcodes.
Hypothesis Hop : opcodes_ok op = true.
Context {T : Type} {api : Api T}.

Lemma self_eta (self : C2Controller T) : mkC2 (_ftdi self) (_write_buff self) = self.
Proof. now destruct self. Qed.

(** A read transaction on a disconnected port raises the "terminated"
    C2Error at its first [sync], which comes after the enqueue unless the
    enqueue itself had to flush. *)
Lemma read_tail_disconnected (self : C2Controller T) frame :
  is_connected (_ftdi self) = false ->
  read_tail frame self
  = (Raise terminated, mkC2 (_ftdi self) (stranded (_write_buff self) frame)).
Proof.
  intros Hc. unfold read_tail, stranded, bind at 1.
  destruct (Z.geb_spec (py_len (_write_buff self) + py_len frame + 1) FTDI_PIPE_LEN).
  - rewrite stack_cmd_at by lia. rewrite sync_disconnected by assumption.
    now rewrite self_eta.
  - rewrite stack_cmd_below by lia. unfold bind at 1.
    now rewrite sync_disconnected by assumption.
Qed.



(** C5, the code at fault.  After a [close] that left the port
    disconnected, [write_addr] and [write_data_byte] still return
    normally and append their frames: [_stack_cmd] tests the truth value
    of the handle, not its connection. *)
Theorem write_after_close_enqueues (self closed : C2Controller T) freeze addr val :
  close freeze self = (Ok tt, closed) ->
  is_connected (_ftdi closed) = false ->
  0 <= addr <= 255 ->
  0 <= val <= 255 ->
  py_len (_write_buff closed) + 18 + 1 < FTDI_PIPE_LEN ->
  write_addr op addr closed
  = (Ok tt, mkC2 (_ftdi closed) (_write_buff closed ++ write_addr_cmd op addr))
  /\ write_data_byte op val closed
     = (Ok tt, mkC2 (_ftdi closed) (_write_buff closed ++ write_data_byte_cmd op val)).
Proof.
  intros _ _ Ha Hv Hlt. split.
  - apply write_addr_enqueues; [assumption..|].
    change (py_len (write_addr_cmd op addr)) with 17. lia.
  - apply write_data_byte_enqueues; [assumption..|].
    change (py_len (write_data_byte_cmd op val)) with 18. lia.
Qed.

End Disconnected.

(** C5 on the stub: close an open port, then write. *)
Lemma write_after_close_enqueues_witness :
  close true (stub_controller true [] [])
  = (Ok tt, mkC2 (mkSpy (mkStub false []) [CallClose true]) [])
  /\ write_addr pyftdi_opcodes 0 (mkC2 (mkSpy (mkStub false []) [CallClose true]) [])
     = (Ok tt, mkC2 (mkSpy (mkStub false []) [CallClose true])
                    (write_addr_cmd pyftdi_opcodes 0))
  /\ write_data_byte pyftdi_opcodes 0 (mkC2 (mkSpy (mkStub false []) [CallClose true]) [])
     = (Ok tt, mkC2 (mkSpy (mkStub false []) [CallClose true])
                    (write_data_byte_cmd pyftdi_opcodes 0)).
Proof.
  split; [reflexivity|].
  exact (write_after_close_enqueues pyftdi_opcodes eq_refl
           (stub_controller true [] [])
           (mkC2 (mkSpy (mkStub false []) [CallClose true]) [])
           true 0 0 eq_refl eq_refl
           (conj (Z.le_refl 0) (Zle_bool_imp_le 0 255 eq_refl))
           (conj (Z.le_refl 0) (Zle_bool_imp_le 0 255 eq_refl))
           eq_refl).
Defined.

(** ** Sequences of frames *)

Section Sequences.
Context {T : Type} {api : Api T}.
Implicit Types (self : C2Controller (Spy T)) (frames : list (list Z)).

(** Whatever the frames, the writes of [batch] followed by what it leaves
    pending are the old buffer followed by the frames, in order. *)
Lemma batch_conserves frames : forall buff,
  concat (fst (batch buff frames)) ++ snd (batch buff frames) = buff ++ concat frames.
Proof.
  induction frames as [|f frames IH]; intros buff; cbn [batch concat fst snd].
  - now rewrite app_nil_r.
  - destruct (py_len buff + py_len f + 1 >=? FTDI_PIPE_LEN).
    + specialize (IH f). destruct (batch f frames) as [ws pending]. cbn [fst snd] in *.
      rewrite concat_app, <- app_assoc, IH.
      destruct buff; cbn [pending_flush concat app]; now rewrite ?app_nil_r.
    + rewrite IH. now rewrite <- app_assoc.
Qed.

(** Short frames keep every write, and the pending buffer, below 511
    bytes: with the reserved byte each write fits the pipe. *)
Lemma batch_bounded frames : forall buff,
  Forall short_frame frames ->
  py_len buff < 511 ->
  Forall (fun w => py_len w < 511) (fst (batch buff frames))
  /\ py_len (snd (batch buff frames)) < 511.
Proof.
  induction frames as [|f frames IH]; intros buff Hf Hb; cbn [batch fst snd].
  - split; [constructor | assumption].
  - inversion Hf as [|? ? Hshort Hrest]; subst.
    assert (py_len f < 511) by (unfold short_frame, py_len in *; lia).
    destruct (Z.geb_spec (py_len buff + py_len f + 1) FTDI_PIPE_LEN) as [Hge|Hlt].
    + destruct (IH f Hrest ltac:(assumption)) as [Hws Hp].
      destruct (batch f frames) as [ws pending]. cbn [fst snd] in *.
      split; [|assumption]. apply Forall_app. split; [|assumption].
      destruct buff; cbn [pending_flush]; repeat constructor. assumption.
    + apply IH; [assumption|]. rewrite py_len_app. unfold FTDI_PIPE_LEN in Hlt. lia.
Qed.

(** Enqueuing short frames on a port that accepts the flushes does what
    [batch] says: the recorded calls are its writes, the buffer is what
    it leaves pending. *)
Lemma enqueue_all_run frames : forall self,
  Forall short_frame frames ->
  flushes_ok (fst (batch (_write_buff self) frames)) (inner (_ftdi self)) = true ->
  enqueue_all frames self
  = (Ok tt,
     mkC2 (mkSpy (after_writes (fst (batch (_write_buff self) frames)) (inner (_ftdi self)))
                 (sent self ++ map CallWrite (fst (batch (_write_buff self) frames))))
          (snd (batch (_write_buff self) frames))).
Proof.
  induction frames as [|f frames IH]; intros self Hf Hok.
  - cbn. unfold ret, sent. rewrite app_nil_r. now destruct self as [[t cs] buff].
  - inversion Hf as [|? ? Hshort Hrest]; subst.
    assert (py_len f < 511) by (unfold short_frame, py_len in *; lia).
    cbn [enqueue_all batch] in *. unfold bind at 1.
    destruct (Z.geb_spec (py_len (_write_buff self) + py_len f + 1) FTDI_PIPE_LEN)
      as [Hge|Hlt].
    + assert (Hb : _write_buff self <> []).
      { intros E. rewrite E, py_len_nil in Hge. unfold FTDI_PIPE_LEN in Hge. lia. }
      destruct (_write_buff self) as [|b buff] eqn:Ebuff; [congruence|].
      specialize (IH (mkC2 (mkSpy (snd (write_data (b :: buff) (inner (_ftdi self))))
                              (sent self ++ [CallWrite (b :: buff)])) f) Hrest).
      cbn [_write_buff _ftdi inner] in IH.
      destruct (batch f frames) as [ws pending]. cbn [fst snd pending_flush app] in *.
      cbn [flushes_ok after_writes map] in *.
      destruct (write_data (b :: buff) (inner (_ftdi self))) as [r1 t1] eqn:W1.
      cbn [fst snd] in *. split_bools. destruct r1 as [[]|]; [|discriminate].
      rewrite stack_cmd_at by (rewrite Ebuff; lia).
      rewrite spy_sync_nonempty by first [assumption | rewrite Ebuff; discriminate].
      rewrite Ebuff, W1. cbn [_ftdi _write_buff app].
      rewrite IH by assumption. unfold sent. cbn [_ftdi calls].
      now rewrite <- app_assoc.
    + rewrite stack_cmd_below by lia.
      specialize (IH (mkC2 (_ftdi self) (_write_buff self ++ f)) Hrest).
      cbn [_write_buff _ftdi] in IH. now rewrite IH.
Qed.

(** X1. Batching and ordering over whole sequences.  For frames shorter
    than 511 bytes enqueued one after another on a port that accepts the
    flushes, the transport sees exactly the writes the threshold rule
    prescribes; those writes followed by the bytes still pending are the
    old buffer followed by the frames in enqueue order; and, from a buffer
    shorter than 511 bytes, every write and the final buffer stay shorter
    than 511 bytes. *)
Theorem enqueue_all_batches self frames :
  Forall short_frame frames ->
  flushes_ok (fst (batch (_write_buff self) frames)) (inner (_ftdi self)) = true ->
  exists ws pending self',
    batch (_write_buff self) frames = (ws, pending)
    /\ enqueue_all frames self = (Ok tt, self')
    /\ sent self' = sent self ++ map CallWrite ws
    /\ _write_buff self' = pending
    /\ concat ws ++ pending = _write_buff self ++ concat frames
    /\ (py_len (_write_buff self) < 511 ->
        Forall (fun w => py_len w < 511) ws /\ py_len pending < 511).
Proof.
  intros Hf Hok.
  pose proof (enqueue_all_run frames self Hf Hok) as Hrun.
  pose proof (batch_conserves frames (_write_buff self)) as Hcons.
  pose proof (batch_bounded frames (_write_buff self) Hf) as Hbound.
  destruct (batch (_write_buff self) frames) as [ws pending]. cbn [fst snd] in *.
  exists ws, pending. eexists. repeat split; try eassumption; try reflexivity.
  all: now apply Hbound.
Qed.

End Sequences.

(** X1 on an open port: of thirty-one frames of 17 bytes the first
    thirty fill the buffer to 510 bytes and the last one forces them
    out. *)
Lemma enqueue_all_batches_witness :
  exists self',
    enqueue_all (repeat (write_addr_cmd pyftdi_opcodes 1) 31) (stub_controller true [] [])
    = (Ok tt, self')
    /\ sent self' = [CallWrite (concat (repeat (write_addr_cmd pyftdi_opcodes 1) 30))]
    /\ _write_buff self' = write_addr_cmd pyftdi_opcodes 1.
Proof.
  destruct (enqueue_all_batches (stub_controller true [] [])
              (repeat (write_addr_cmd pyftdi_opcodes 1) 31))
    as (ws & pending & self' & Hb & Hrun & Hsent & Hbuff & _).
  - apply Forall_forall. intros f Hin. apply repeat_spec in Hin. subst f.
    unfold short_frame. cbn. lia.
  - vm_compute. reflexivity.
  - exists self'. vm_compute in Hb. injection Hb as <- <-.
    repeat split; assumption.
Defined.

(** ** Close *)

Section Close.
Variable op : Opcodes.
Hypothesis Hop : opcodes_ok op = true.
Context {T : Type} {api : Api T}.
Implicit Types (self closed : C2Controller (Spy T)).

(** X2. [close] on a disconnected port does nothing at all; on a
    connected one it makes exactly one transport call, [close] with the
    caller's [freeze] flag, and does not touch the pending buffer. *)
Theorem close_passes_freeze self freeze :
  (is_connected (_ftdi self) = false -> close freeze self = (Ok tt, self))
  /\ (is_connected (_ftdi self) = true ->
      exists r self',
        close freeze self = (r, self')
        /\ sent self' = sent self ++ [CallClose freeze]
        /\ _write_buff self' = _write_buff self).
Proof.
  split; intros Hc; unfold close, bind, ftdi_connected; rewrite Hc.
  - reflexivity.
  - unfold ftdi_call, sent. cbn [Ftdi.close spy_api]. unfold record.
    destruct (Ftdi.close freeze (inner (_ftdi self))) as [[[]|why] t'];
      eexists; eexists; repeat split.
Qed.

(** X3. Once the port is disconnected, as after [close], the operations
    guarded by [is_connected] raise the "terminated" C2Error: [sync],
    [reset], and both read transactions (at their forced flush). *)
Theorem guarded_operations_after_close self closed freeze :
  close freeze self = (Ok tt, closed) ->
  is_connected (_ftdi closed) = false ->
  fst (sync closed) = Raise terminated
  /\ fst (reset op closed) = Raise terminated
  /\ fst (read_addr op closed) = Raise terminated
  /\ fst (read_data_byte op closed) = Raise terminated.
Proof.
  intros _ Hc. repeat split.
  - now rewrite sync_disconnected.
  - unfold reset, bind, ftdi_connected. now rewrite Hc.
  - rewrite read_addr_unfold by assumption. now rewrite read_tail_disconnected.
  - rewrite read_data_byte_unfold by assumption. now rewrite read_tail_disconnected.
Qed.

End Close.

(** X3 on the stub: close an open port, then read. *)
Lemma guarded_operations_after_close_witness :
  fst (read_addr pyftdi_opcodes (mkC2 (mkSpy (mkStub false []) [CallClose false]) []))
  = Raise terminated.
Proof.
  exact (proj1 (proj2 (proj2
           (guarded_operations_after_close pyftdi_opcodes eq_refl
              (stub_controller true [] [])
              (mkC2 (mkSpy (mkStub false []) [CallClose false]) [])
              false eq_refl eq_refl)))).
Defined.

(** ** Arguments that are not bytes *)

Section NonByte.
Variable op : Opcodes.
Context {T : Type} {api : Api T}.
Implicit Types (self : C2Controller T).

Lemma is_byte_out x : x < 0 \/ 255 < x -> is_byte x = false.
Proof.
  intros H. unfold is_byte. apply andb_false_iff.
  destruct H; [left; apply Z.leb_gt | right; apply Z.ltb_ge]; lia.
Qed.

Lemma forallb_is_byte_out pre x post :
  x < 0 \/ 255 < x -> forallb is_byte (pre ++ x :: post) = false.
Proof.
  intros H. rewrite forallb_app. cbn [forallb].
  rewrite (is_byte_out x H). cbn [andb]. apply andb_false_r.
Qed.

Lemma bytearray_out pre x post :
  x < 0 \/ 255 < x ->
  bytearray (pre ++ x :: post)
  = Raise (ValueError "byte must be in range(0, 256)"%string).
Proof. intros H. unfold bytearray. now rewrite forallb_is_byte_out. Qed.

(** X4. An address or data value outside range(256) makes [write_addr]
    and [write_data_byte] raise ValueError while the frame is being
    built: nothing is enqueued and the transport is not touched,
    whatever the opcodes and the state of the port. *)
Theorem write_rejects_non_byte self x :
  x < 0 \/ 255 < x ->
  write_addr op x self
  = (Raise (ValueError "byte must be in range(0, 256)"%string), self)
  /\ write_data_byte op x self
     = (Raise (ValueError "byte must be in range(0, 256)"%string), self).
Proof.
  intros H. split.
  - unfold write_addr, bind, lift.
    change (write_addr_cmd op x)
      with ([ CLK_BITS_NO_DATA op; 0; SET_BITS_LOW op; Z.lor CK_BIT D_O_BIT;
              Z.lor CK_BIT D_O_BIT; WRITE_BITS_PVE_LSB op; 1; INS_WRITE_ADDR;
              WRITE_BYTES_PVE_LSB op; 0; 0 ]
            ++ x :: [ SET_BITS_LOW op; Z.lor CK_BIT D_O_BIT; CK_BIT;
                      CLK_BITS_NO_DATA op; 0 ]).
    now rewrite bytearray_out.
  - unfold write_data_byte, bind, lift.
    change (write_data_byte_cmd op x)
      with ([ CLK_BITS_NO_DATA op; 0; SET_BITS_LOW op; Z.lor CK_BIT D_O_BIT;
              Z.lor CK_BIT D_O_BIT; WRITE_BITS_PVE_LSB op; 3; INS_WRITE_DATA;
              WRITE_BYTES_PVE_LSB op; 0; 0 ]
            ++ x :: [ SET_BITS_LOW op; Z.lor CK_BIT D_O_BIT; CK_BIT;
                      CLK_WAIT_ON_HIGH op; CLK_BITS_NO_DATA op; 0 ]).
    now rewrite bytearray_out.
Qed.

End NonByte.

(** X4 at the address 256 on an open port with pending bytes. *)
Lemma write_rejects_non_byte_witness :
  write_addr pyftdi_opcodes 256 (stub_controller true [] [1; 2])
  = (Raise (ValueError "byte must be in range(0, 256)"%string),
     stub_controller true [] [1; 2]).
Proof.
  exact (proj1 (write_rejects_non_byte pyftdi_opcodes (stub_controller true [] [1; 2]) 256
                  (or_intror eq_refl))).
Defined.

(** ** Claim and release *)

Section ClaimRelease.
Variable op : Opcodes.
Hypothesis Hop : opcodes_ok op = true.
Context {T : Type} {api : Api T}.
Implicit Types (self : C2Controller (Spy T)).

Lemma claim_release_cmds_bytes :
  bytearray (claim_cmd op) = Ok (claim_cmd op)
  /\ bytearray (release_cmd op) = Ok (release_cmd op).
Proof.
  split; apply bytearray_ok; opcode_facts Hop; cbn [forallb claim_cmd release_cmd];
    rewrite !andb_true_iff; repeat split; try reflexivity;
    apply is_byte_range; assumption.
Qed.

(** X5. [claim] makes exactly one transport call, a write of the single
    command "set low byte: value CK|D_O, direction CK", and that
    whatever the port says of its connection; it neither flushes nor
    changes the pending buffer, so the command reaches the transport ahead
    of anything enqueued before it.  A failure of the write is raised as
    it is. *)
Theorem claim_bypasses_buffer self :
  claim op self
  = (let '(r, t') := write_data (claim_cmd op) (inner (_ftdi self)) in
     (match r with
      | TOk _ => Ok tt
      | TFail why => Raise (FtdiError why)
      end,
      mkC2 (mkSpy t' (sent self ++ [CallWrite (claim_cmd op)])) (_write_buff self)))
  /\ decode op (claim_cmd op) = Some [SetBitsLow (Z.lor CK_BIT D_O_BIT) CK_BIT].
Proof.
  destruct claim_release_cmds_bytes as [Hclaim _]. split.
  - unfold claim, bind, lift. rewrite Hclaim. apply spy_write.
  - unfold claim_cmd. decode_frame Hop.
Qed.

(** X6. [release] on a disconnected port raises the "terminated"
    C2Error and writes nothing.  Connected, on a port that accepts the
    writes, it first writes the pending buffer (if any) and then the
    single command "set low byte: value CK|D_O, direction 0", leaving the
    buffer empty.  If the flush is refused, the release command is not
    sent and the pending bytes stay in the buffer. *)
Theorem release_flushes_then_releases self :
  (is_connected (_ftdi self) = false -> release op self = (Raise terminated, self))
  /\ (forall ws,
        is_connected (_ftdi self) = true ->
        ws = pending_flush (_write_buff self) ++ [release_cmd op] ->
        writes_ok ws (inner (_ftdi self)) = true ->
        release op self
        = (Ok tt, mkC2 (mkSpy (after_writes ws (inner (_ftdi self)))
                               (sent self ++ map CallWrite ws)) []))
  /\ (forall why t',
        is_connected (_ftdi self) = true ->
        _write_buff self <> [] ->
        write_data (_write_buff self) (inner (_ftdi self)) = (TFail why, t') ->
        release op self
        = (Raise (FtdiError why),
           mkC2 (mkSpy t' (sent self ++ [CallWrite (_write_buff self)]))
                (_write_buff self)))
  /\ decode op (release_cmd op) = Some [SetBitsLow (Z.lor CK_BIT D_O_BIT) 0].
Proof.
  destruct claim_release_cmds_bytes as [_ Hrel]. repeat split.
  - intros Hc. unfold release, bind at 1. now rewrite sync_disconnected.
  - intros ws Hc -> Hok. unfold release, bind at 1.
    destruct (_write_buff self) as [|b buff] eqn:Hb; cbn [pending_flush app] in *.
    + rewrite sync_empty by assumption.
      unfold bind, lift. rewrite Hrel, spy_write.
      cbn [writes_ok after_writes map] in *.
      destruct (write_data (release_cmd op) (inner (_ftdi self))) as [r1 t1].
      cbn [fst snd] in *. split_bools. destruct r1 as [[]|]; [|discriminate].
      now rewrite Hb.
    + cbn [writes_ok after_writes map] in *.
      destruct (write_data (b :: buff) (inner (_ftdi self))) as [r0 t0] eqn:W0.
      cbn [fst snd] in *. apply andb_true_iff in Hok. destruct Hok as [H0 Hok].
      destruct r0 as [[]|]; [|discriminate].
      rewrite spy_sync_nonempty by (rewrite ?Hb; congruence). rewrite Hb, W0.
      unfold bind, lift. rewrite Hrel, spy_write. cbn [_ftdi inner _write_buff].
      destruct (write_data (release_cmd op) t0) as [r1 t1]. cbn [fst snd] in *.
      split_bools. destruct r1 as [[]|]; [|discriminate].
      unfold sent. cbn [_ftdi calls]. now rewrite <- app_assoc.
  - intros why t' Hc Hb Hw. unfold release, bind at 1.
    rewrite spy_sync_nonempty by assumption. now rewrite Hw.
  - unfold release_cmd. decode_frame Hop.
Qed.

End ClaimRelease.

(** X5 on a closed port with two pending bytes: the write is attempted
    all the same, and its refusal is raised. *)
Lemma claim_bypasses_buffer_witness :
  claim pyftdi_opcodes (stub_controller false [] [7; 9])
  = (Raise (FtdiError "port is closed"%string),
     mkC2 (mkSpy (mkStub false []) [CallWrite [0x80; 3; 1]]) [7; 9]).
Proof.
  exact (proj1 (claim_bypasses_buffer pyftdi_opcodes eq_refl
                  (stub_controller false [] [7; 9]))).
Defined.

(** X6 on an open port with two pending bytes. *)
Lemma release_flushes_then_releases_witness :
  release pyftdi_opcodes (stub_controller true [] [7; 9])
  = (Ok tt, mkC2 (mkSpy (mkStub true []) [CallWrite [7; 9]; CallWrite [0x80; 3; 0]]) []).
Proof.
  exact (proj1 (proj2 (release_flushes_then_releases pyftdi_opcodes eq_refl
                         (stub_controller true [] [7; 9])))
           _ eq_refl eq_refl eq_refl).
Defined.

(** ** A read whose flush is refused *)

Section RefusedFlush.
Variable op : Opcodes.
Hypothesis Hop : opcodes_ok op = true.
Context {T : Type} {api : Api T}.
Implicit Types (self : C2Controller (Spy T)) (frame : list Z).

Lemma read_tail_refused self frame why t' :
  frame <> [] ->
  is_connected (_ftdi self) = true ->
  py_len (_write_buff self) + py_len frame + 1 < FTDI_PIPE_LEN ->
  write_data (_write_buff self ++ frame) (inner (_ftdi self)) = (TFail why, t') ->
  read_tail frame self
  = (Raise (FtdiError why),
     mkC2 (mkSpy t' (sent self ++ [CallWrite (_write_buff self ++ frame)]))
          (_write_buff self ++ frame)).
Proof.
  intros Hne Hc Hlt Hw. unfold read_tail, bind at 1.
  rewrite stack_cmd_below by assumption. unfold bind at 1.
  rewrite spy_sync_nonempty.
  - cbn [_ftdi _write_buff]. now rewrite Hw.
  - assumption.
  - cbn [_write_buff]. intros E. apply app_eq_nil in E. tauto.
Qed.

(** At the threshold the pending buffer is flushed before the frame is
    enqueued: if that write is refused, the frame never enters the
    buffer. *)
Lemma read_tail_refused_first self frame why t' :
  py_len frame + 1 < FTDI_PIPE_LEN ->
  is_connected (_ftdi self) = true ->
  py_len (_write_buff self) + py_len frame + 1 >= FTDI_PIPE_LEN ->
  write_data (_write_buff self) (inner (_ftdi self)) = (TFail why, t') ->
  read_tail frame self
  = (Raise (FtdiError why),
     mkC2 (mkSpy t' (sent self ++ [CallWrite (_write_buff self)])) (_write_buff self)).
Proof.
  intros Hf Hc Hge Hw.
  assert (Hb : _write_buff self <> []).
  { intros E. rewrite E, py_len_nil in Hge. lia. }
  unfold read_tail, bind at 1. rewrite stack_cmd_at by assumption.
  rewrite spy_sync_nonempty by assumption. now rewrite Hw.
Qed.

(** At the threshold, with the first write accepted, the frame is alone
    in the buffer when its own write is refused. *)
Lemma read_tail_refused_second self frame why t1 t2 :
  frame <> [] ->
  py_len frame + 1 < FTDI_PIPE_LEN ->
  is_connected (_ftdi self) = true ->
  py_len (_write_buff self) + py_len frame + 1 >= FTDI_PIPE_LEN ->
  write_data (_write_buff self) (inner (_ftdi self)) = (TOk tt, t1) ->
  is_connected t1 = true ->
  write_data frame t1 = (TFail why, t2) ->
  read_tail frame self
  = (Raise (FtdiError why),
     mkC2 (mkSpy t2 (sent self ++ [CallWrite (_write_buff self); CallWrite frame])) frame).
Proof.
  intros Hne Hf Hc Hge Hw1 Hc1 Hw2.
  assert (Hb : _write_buff self <> []).
  { intros E. rewrite E, py_len_nil in Hge. lia. }
  unfold read_tail, bind at 1. rewrite stack_cmd_at by assumption.
  rewrite spy_sync_nonempty by assumption. rewrite Hw1. cbn [_ftdi _write_buff app].
  unfold bind at 1. rewrite spy_sync_nonempty by (cbn; assumption).
  cbn [_ftdi _write_buff inner]. rewrite Hw2.
  unfold sent. cbn [_ftdi calls]. now rewrite <- app_assoc.
Qed.

(** X7. When the transport of a connected port refuses a write that
    flushes a read transaction, [read_addr] and [read_data_byte] raise
    that failure and make no read call: the refused write is the last
    call on record.  If the frame fit below the threshold, that write is
    the only call and the pending bytes followed by the frame stay in the
    buffer.  If the frame forced a flush first and that write is refused,
    the frame is not enqueued and the pending bytes stay.  If that first
    write is accepted and the write of the frame is refused, both writes
    are on record and the frame alone stays in the buffer. *)
Theorem refused_flush_skips_read self (m : M (Spy T) Z) frame why :
  (m = read_addr op /\ frame = read_addr_cmd op)
  \/ (m = read_data_byte op /\ frame = read_data_byte_cmd op) ->
  is_connected (_ftdi self) = true ->
  (forall t',
     py_len (_write_buff self) + py_len frame + 1 < FTDI_PIPE_LEN ->
     write_data (_write_buff self ++ frame) (inner (_ftdi self)) = (TFail why, t') ->
     m self
     = (Raise (FtdiError why),
        mkC2 (mkSpy t' (sent self ++ [CallWrite (_write_buff self ++ frame)]))
             (_write_buff self ++ frame)))
  /\ (forall t',
        py_len (_write_buff self) + py_len frame + 1 >= FTDI_PIPE_LEN ->
        write_data (_write_buff self) (inner (_ftdi self)) = (TFail why, t') ->
        m self
        = (Raise (FtdiError why),
           mkC2 (mkSpy t' (sent self ++ [CallWrite (_write_buff self)]))
                (_write_buff self)))
  /\ (forall t1 t2,
        py_len (_write_buff self) + py_len frame + 1 >= FTDI_PIPE_LEN ->
        write_data (_write_buff self) (inner (_ftdi self)) = (TOk tt, t1) ->
        is_connected t1 = true ->
        write_data frame t1 = (TFail why, t2) ->
        m self
        = (Raise (FtdiError why),
           mkC2 (mkSpy t2 (sent self ++ [CallWrite (_write_buff self); CallWrite frame]))
                frame)).
Proof.
  intros Hm Hc.
  assert (Hrun : m self = read_tail frame self
                 /\ frame <> [] /\ py_len frame + 1 < FTDI_PIPE_LEN).
  { destruct Hm as [[-> ->]|[-> ->]].
    - rewrite read_addr_unfold by assumption. repeat split. discriminate.
    - rewrite read_data_byte_unfold by assumption. repeat split. discriminate. }
  destruct Hrun as (-> & Hne & Hf). split; [|split].
  - intros t' Hlt Hw. now apply read_tail_refused.
  - intros t' Hge Hw. now apply read_tail_refused_first.
  - intros t1 t2 Hge Hw1 Hc1 Hw2. now apply read_tail_refused_second with (t1 := t1).
Qed.

End RefusedFlush.

(** X7 on a port that refuses writes, with 500 pending bytes: the frame
    would cross the threshold, the flush before it is refused, and the
    frame is not enqueued. *)
Lemma refused_flush_skips_read_witness :
  read_addr pyftdi_opcodes (mkC2 (mkSpy (mkJammed "stall") []) (repeat 0 500))
  = (Raise (FtdiError "stall"),
     mkC2 (mkSpy (mkJammed "stall") [CallWrite (repeat 0 500)]) (repeat 0 500)).
Proof.
  refine (proj1 (proj2 (refused_flush_skips_read pyftdi_opcodes eq_refl
                          (mkC2 (mkSpy (mkJammed "stall") []) (repeat 0 500))
                          (read_addr pyftdi_opcodes) (read_addr_cmd pyftdi_opcodes)
                          "stall"%string (or_introl (conj eq_refl eq_refl)) eq_refl))
            (mkJammed "stall") _ eq_refl).
  vm_compute. discriminate.
Defined.

(** ** The pending buffer on failure *)

Section Failure.
Variable op : Opcodes.
Hypothesis Hop : opcodes_ok op = true.
Context {T : Type} {api : Api T}.
Implicit Types (self later : C2Controller (Spy T)).


End Failure.



(** ** The pipe limit under any use of the public methods *)

Section PipeLimit.
Variable op : Opcodes.
Context {T : Type} {api : Api T}.
Implicit Types (self : C2Controller (Spy T)).

Lemma keeps_ret {A} (a : A) : keeps (ret a : M (Spy T) A).
Proof. intros self H. exact H. Qed.

Lemma keeps_raise {A} e : keeps (raise e : M (Spy T) A).
Proof. intros self H. exact H. Qed.

Lemma keeps_bind {A B} (m : M (Spy T) A) (k : A -> M (Spy T) B) :
  keeps m -> (forall a, keeps (k a)) -> keeps (bind m k).
Proof.
  intros Hm Hk self H. unfold bind. specialize (Hm self H).
  destruct (m self) as [[a|e] self']; cbn [snd] in *.
  - now apply Hk.
  - assumption.
Qed.

(** After [bytearray], the continuation only runs on the list itself. *)
Lemma keeps_bytearray {B} xs (k : list Z -> M (Spy T) B) :
  keeps (k xs) -> keeps (bind (lift (bytearray xs)) k).
Proof.
  intros Hk self H. unfold bind, lift, bytearray.
  destruct (forallb is_byte xs); cbn [snd]; [now apply Hk | assumption].
Qed.

(** A transport call adds its record and leaves the buffer alone. *)
Lemma keeps_call {A} (c : Call) (f : T -> TRes A * T) :
  call_fits c -> keeps (ftdi_call (record c f)).
Proof.
  intros Hc self [Hb Hs]. unfold ftdi_call, record, fits, sent in *.
  destruct (f (inner (_ftdi self))) as [[a|why] t']; cbn [snd _ftdi _write_buff calls];
    (split; [assumption | apply Forall_app; split; [assumption | now constructor]]).
Qed.

Lemma keeps_write data :
  py_len data + 1 < FTDI_PIPE_LEN -> keeps (ftdi_call (write_data data)).
Proof. intros H. apply (keeps_call (CallWrite data)). exact H. Qed.

Lemma keeps_sync : keeps (sync (T := Spy T)).
Proof.
  intros self H.
  destruct (is_connected (_ftdi self)) eqn:Hc.
  - destruct (list_eq_dec Z.eq_dec (_write_buff self) []) as [E|E].
    + rewrite sync_empty by assumption. exact H.
    + rewrite spy_sync_nonempty by assumption. destruct H as [Hb Hs].
      destruct (write_data (_write_buff self) (inner (_ftdi self))) as [[u|why] t'];
        unfold fits, sent; cbn [snd _ftdi _write_buff calls];
        (split; [first [assumption | reflexivity]
                | apply Forall_app; split; [assumption | now repeat constructor]]).
  - rewrite sync_disconnected by assumption. exact H.
Qed.

(** Enqueuing a frame that itself fits the pipe: below the threshold the
    grown buffer fits by the test just made, at the threshold the frame
    lands in the buffer [sync] emptied, or nothing is appended. *)
Lemma keeps_stack_cmd cmd :
  py_len cmd + 1 < FTDI_PIPE_LEN -> keeps (_stack_cmd (T := Spy T) (PyByteArray cmd)).
Proof.
  intros Hcmd self H.
  destruct (Z.lt_ge_cases (py_len (_write_buff self) + py_len cmd + 1) FTDI_PIPE_LEN)
    as [Hlt|Hge].
  - rewrite stack_cmd_below by assumption. destruct H as [_ Hs].
    split; [cbn [snd _write_buff]; now rewrite py_len_app | exact Hs].
  - rewrite stack_cmd_at by lia. pose proof (keeps_sync self H) as Hk.
    destruct (sync self) as [[[]|e] self'] eqn:Hsync; cbn [snd] in *.
    + apply sync_ok_empties in Hsync. destruct Hk as [_ Hs].
      split; [cbn [_write_buff]; now rewrite Hsync | exact Hs].
    + exact Hk.
Qed.

Lemma keeps_read_tail frame :
  py_len frame + 1 < FTDI_PIPE_LEN -> keeps (read_tail (T := Spy T) frame).
Proof.
  intros Hf. unfold read_tail.
  apply keeps_bind; [now apply keeps_stack_cmd | intros _].
  apply keeps_bind; [apply keeps_sync | intros _].
  apply keeps_bind; [now apply (keeps_call (CallRead 1 4)) | intros data].
  intros self H. exact H.
Qed.

Lemma keeps_run_op o : keeps (run_op op (T := Spy T) o).
Proof.
  destruct o; cbn [run_op].
  - (* close *)
    unfold close. apply keeps_bind; [now intros self H | intros connected].
    destruct connected; [now apply (keeps_call (CallClose freeze)) | apply keeps_ret].
  - (* purge *) now apply (keeps_call CallPurge).
  - (* sync *) apply keeps_sync.
  - (* claim *) unfold claim. apply keeps_bytearray. now apply keeps_write.
  - (* release *)
    unfold release. apply keeps_bind; [apply keeps_sync | intros _].
    apply keeps_bytearray. now apply keeps_write.
  - (* reset *)
    unfold reset. apply keeps_bind; [now intros self H | intros connected].
    destruct connected; cbn [negb]; [|apply keeps_raise].
    apply keeps_bind; [apply keeps_sync | intros _].
    apply keeps_bytearray. apply keeps_bind; [now apply keeps_write | intros _].
    apply keeps_bytearray. now apply keeps_write.
  - (* write_addr *)
    unfold write_addr. apply keeps_bytearray. now apply keeps_stack_cmd.
  - (* read_addr *)
    apply keeps_bind; [|intros; apply keeps_ret].
    unfold read_addr. apply keeps_bytearray.
    now apply (keeps_read_tail (read_addr_cmd op)).
  - (* write_data_byte *)
    unfold write_data_byte. apply keeps_bytearray. now apply keeps_stack_cmd.
  - (* read_data_byte *)
    apply keeps_bind; [|intros; apply keeps_ret].
    unfold read_data_byte. apply keeps_bytearray.
    now apply (keeps_read_tail (read_data_byte_cmd op)).
Qed.

(** X8. Whatever public methods are called, in whatever order, with
    whatever arguments, on whatever transport and with whatever results
    (exceptions included, the caller carrying on after them): if the
    pending buffer and the earlier writes fit the 512-byte pipe with
    their reserved byte, so do the pending buffer and every write made
    since. *)
Theorem public_methods_fit_pipe (os : list Op) : forall self,
  fits self -> fits (run_ops op os self).
Proof.
  induction os as [|o os IH]; intros self H; cbn [run_ops].
  - exact H.
  - apply IH. now apply keeps_run_op.
Qed.

End PipeLimit.

(** X8 on an open port: forty address writes, a failing value, a read, a
    reset, a close, and a write after the close. *)
Lemma public_methods_fit_pipe_witness :
  fits (run_ops pyftdi_opcodes
          (repeat (OpWriteAddr 1) 40
           ++ [OpWriteDataByte 300; OpReadAddr; OpReset; OpClose false; OpWriteAddr 2])
          (stub_controller true [[5]] [])).
Proof.
  apply public_methods_fit_pipe. split; [reflexivity | constructor].
Defined.

(** ** Decoding a batch *)

Section DecodeBatch.
Variable op : Opcodes.
Hypothesis Hop : opcodes_ok op = true.

(** More fuel does not change what is decoded. *)
Lemma decode_fuel_mono fuel : forall bs cs fuel',
  decode_fuel op fuel bs = Some cs ->
  (fuel <= fuel')%nat ->
  decode_fuel op fuel' bs = Some cs.
Proof.
  induction fuel as [|fuel IH]; intros bs cs fuel' H Hle; [discriminate|].
  destruct fuel' as [|fuel']; [lia|].
  cbn [decode_fuel] in *. cbv zeta in *.
  destruct bs as [|b rest]; [assumption|].
  repeat match type of H with
  | context [if ?c then _ else _] => destruct c
  | context [match ?l with [] => _ | _ :: _ => _ end] => destruct l
  end; try discriminate;
  unfold cons_cmd in *;
  match type of H with
  | option_map _ (decode_fuel op fuel ?r) = Some _ =>
      destruct (decode_fuel op fuel r) as [cs'|] eqn:E; [|discriminate];
      rewrite (IH _ _ fuel' E) by lia; exact H
  end.
Qed.

(** A write frame in front of more bytes decodes to its commands in
    front of what the rest decodes to. *)
Lemma decode_fuel_write_frame w fuel rest :
  decode_fuel op (List.length (write_cmds w) + fuel) (write_frame op w ++ rest)
  = option_map (app (write_cmds w)) (decode_fuel op fuel rest).
Proof.
  destruct w as [addr|val];
    cbn [write_frame write_cmds List.length Nat.add write_addr_cmd write_data_byte_cmd app];
    unfold write_addr_cmd, write_data_byte_cmd; cbn [app];
    repeat first
      [ rewrite decode_clk | rewrite (decode_set _ Hop) | rewrite (decode_wbits _ Hop)
      | rewrite (decode_wbyte _ Hop) | rewrite (decode_wait _ Hop) ];
    now destruct (decode_fuel op fuel rest).
Qed.

Lemma decode_fuel_batch ws : forall fuel rest,
  decode_fuel op (List.length (batch_cmds ws) + fuel) (batch_bytes op ws ++ rest)
  = option_map (app (batch_cmds ws)) (decode_fuel op fuel rest).
Proof.
  induction ws as [|w ws IH]; intros fuel rest.
  - cbn. now destruct (decode_fuel op fuel rest).
  - unfold batch_cmds, batch_bytes in *. cbn [map concat].
    rewrite length_app, <- Nat.add_assoc, <- app_assoc.
    rewrite decode_fuel_write_frame, IH.
    destruct (decode_fuel op fuel rest); cbn [option_map]; now rewrite ?app_assoc.
Qed.

Lemma batch_cmds_length ws :
  (List.length (batch_cmds ws) <= List.length (batch_bytes op ws))%nat.
Proof.
  induction ws as [|w ws IH]; [reflexivity|].
  unfold batch_cmds, batch_bytes in *. cbn [map concat]. rewrite !length_app.
  destruct w; cbn [write_cmds write_frame write_addr_cmd write_data_byte_cmd List.length];
    lia.
Qed.

(** A batch followed by a tail that decodes with some fuel decodes, as a
    whole, to the commands of both. *)
Lemma decode_batch_then ws tail fuel cs :
  decode_fuel op fuel tail = Some cs ->
  (fuel <= S (List.length tail))%nat ->
  decode op (batch_bytes op ws ++ tail) = Some (batch_cmds ws ++ cs).
Proof.
  intros Ht Hf. unfold decode.
  apply decode_fuel_mono with (fuel := (List.length (batch_cmds ws) + fuel)%nat).
  - now rewrite decode_fuel_batch, Ht.
  - rewrite length_app. pose proof (batch_cmds_length ws). lia.
Qed.

Lemma decode_batch ws : decode op (batch_bytes op ws) = Some (batch_cmds ws).
Proof.
  rewrite <- (app_nil_r (batch_bytes op ws)).
  rewrite (decode_batch_then ws [] 1 []); [now rewrite app_nil_r | reflexivity | cbn; lia].
Qed.

Lemma writes_of_batch ws : writes_of (batch_cmds ws) = ws.
Proof.
  induction ws as [|w ws IH]; [reflexivity|].
  unfold batch_cmds in *. cbn [map concat].
  destruct w; cbn [write_cmds app writes_of]; cbn; now rewrite IH.
Qed.



End DecodeBatch.

(** ** What a batch of writes leaves in the buffer, and what a read adds *)

Section BatchRoundTrip.
Variable op : Opcodes.
Hypothesis Hop : opcodes_ok op = true.
Context {T : Type} {api : Api T}.
Implicit Types (self : C2Controller T) (ws : list WriteOp).

Lemma run_write_enqueues self w :
  byte_arg w ->
  py_len (_write_buff self) + py_len (write_frame op w) + 1 < FTDI_PIPE_LEN ->
  run_write op w self = (Ok tt, mkC2 (_ftdi self) (_write_buff self ++ write_frame op w)).
Proof.
  destruct w; cbn [run_write write_frame]; intros Hb Hlt.
  - now apply write_addr_enqueues.
  - now apply write_data_byte_enqueues.
Qed.

Lemma run_writes_below ws : forall self,
  Forall byte_arg ws ->
  py_len (_write_buff self) + py_len (batch_bytes op ws) + 1 < FTDI_PIPE_LEN ->
  run_writes op ws self
  = (Ok tt, mkC2 (_ftdi self) (_write_buff self ++ batch_bytes op ws)).
Proof.
  induction ws as [|w ws IH]; intros self Hb Hlt.
  - cbn. unfold ret. rewrite app_nil_r. now destruct self.
  - inversion Hb as [|? ? Hw Hws]; subst.
    unfold batch_bytes in *. cbn [run_writes map concat] in *.
    rewrite py_len_app in Hlt.
    assert (0 <= py_len (concat (map (write_frame op) ws))) by (unfold py_len; lia).
    unfold bind. rewrite run_write_enqueues by (assumption || lia).
    rewrite IH; cbn [_ftdi _write_buff].
    + now rewrite <- app_assoc.
    + assumption.
    + rewrite py_len_app. lia.
Qed.

(** X9. Write transactions queued into an empty buffer, as long as they
    stay below the flush threshold, do not touch the transport, and the
    buffer they leave reads back, command by command, as exactly those
    transactions with their addresses and values, in the order they were
    called. *)
Theorem batched_writes_round_trip self ws :
  _write_buff self = [] ->
  Forall byte_arg ws ->
  py_len (batch_bytes op ws) + 1 < FTDI_PIPE_LEN ->
  exists self',
    run_writes op ws self = (Ok tt, self')
    /\ _ftdi self' = _ftdi self
    /\ option_map writes_of (decode op (_write_buff self')) = Some ws.
Proof.
  intros Hempty Hb Hlt. eexists. split; [|split].
  - apply run_writes_below; [assumption|]. now rewrite Hempty, py_len_nil.
  - reflexivity.
  - cbn [_write_buff]. rewrite Hempty. cbn [app].
    rewrite decode_batch by assumption. cbn [option_map]. now rewrite writes_of_batch.
Qed.


End BatchRoundTrip.

(** X9 on a fresh controller: an address, two values, another address. *)
Lemma batched_writes_round_trip_witness :
  exists self',
    run_writes pyftdi_opcodes [WAddr 0xb4; WData 1; WData 0x94; WAddr 0]
      (stub_controller true [] [])
    = (Ok tt, self')
    /\ _ftdi self' = mkSpy (mkStub true []) []
    /\ option_map writes_of (decode pyftdi_opcodes (_write_buff self'))
       = Some [WAddr 0xb4; WData 1; WData 0x94; WAddr 0].
Proof.
  apply (batched_writes_round_trip pyftdi_opcodes eq_refl (stub_controller true [] [])
           [WAddr 0xb4; WData 1; WData 0x94; WAddr 0] eq_refl).
  - repeat constructor; unfold byte_arg; cbn; lia.
  - reflexivity.
Defined.


(** ** What a returning flush or read leaves pending *)

Section NothingPending.
Variable op : Opcodes.
Context {T : Type} {api : Api T}.
Implicit Types (self : C2Controller T).

Lemma read_tail_ok_empties self frame v self' :
  read_tail frame self = (Ok v, self') -> _write_buff self' = [].
Proof.
  unfold read_tail, bind.
  destruct (_stack_cmd (PyByteArray frame) self) as [[[]|e] s1]; [|discriminate].
  destruct (sync s1) as [[[]|e] s2] eqn:Hs; [|discriminate].
  apply sync_ok_empties in Hs.
  unfold ftdi_call, lift.
  destruct (read_data_bytes 1 4 (_ftdi s2)) as [[data|why] t']; [|discriminate].
  intros [= _ <-]. exact Hs.
Qed.

(** X11. On any transport: whenever [sync] returns, and whenever
    [read_addr] or [read_data_byte] returns a value, the pending buffer is
    empty afterwards: nothing queued before a successful flush or read is
    still waiting to be sent. *)
Theorem returning_flush_leaves_nothing_pending self self' :
  (sync self = (Ok tt, self') -> _write_buff self' = [])
  /\ (forall v, read_addr op self = (Ok v, self') -> _write_buff self' = [])
  /\ (forall v, read_data_byte op self = (Ok v, self') -> _write_buff self' = []).
Proof.
  split; [|split].
  - apply sync_ok_empties.
  - intros v. unfold read_addr, bind at 1, lift at 1.
    destruct (bytearray (read_addr_cmd op)) as [cmd|e]; [|discriminate].
    apply read_tail_ok_empties.
  - intros v. unfold read_data_byte, bind at 1, lift at 1.
    destruct (bytearray (read_data_byte_cmd op)) as [cmd|e]; [|discriminate].
    apply read_tail_ok_empties.
Qed.

End NothingPending.

(** ** A reset cut short *)

Section ResetRefused.
Variable op : Opcodes.
Hypothesis Hop : opcodes_ok op = true.
Context {T : Type} {api : Api T}.
Implicit Types (self : C2Controller (Spy T)).

(** X12. [reset] stops at the first write the transport refuses.  With
    nothing pending on a connected port: if the write that drives the
    clock low is refused, the write that drives it high is never made;
    if the low write is accepted and the high write refused, both are on
    record and the failure is raised, the clock line having been driven
    low and not raised again. *)
Theorem reset_stops_at_refused_write self why :
  _write_buff self = [] ->
  is_connected (_ftdi self) = true ->
  (forall t',
     write_data (reset_low_cmd op) (inner (_ftdi self)) = (TFail why, t') ->
     reset op self
     = (Raise (FtdiError why),
        mkC2 (mkSpy t' (sent self ++ [CallWrite (reset_low_cmd op)])) []))
  /\ (forall t1 t2,
        write_data (reset_low_cmd op) (inner (_ftdi self)) = (TOk tt, t1) ->
        write_data (reset_high_cmd op) t1 = (TFail why, t2) ->
        reset op self
        = (Raise (FtdiError why),
           mkC2 (mkSpy t2 (sent self ++ [CallWrite (reset_low_cmd op);
                                         CallWrite (reset_high_cmd op)])) [])).
Proof.
  intros Hb Hc. destruct (reset_cmds_bytes op Hop) as [Hlow Hhigh].
  assert (Hstart :
            reset op self
            = bind (ftdi_call (write_data (reset_low_cmd op)))
                (fun _ => bind (lift (bytearray (reset_high_cmd op)))
                            (fun cmd => ftdi_call (write_data cmd))) self).
  { unfold reset, bind at 1, ftdi_connected. rewrite Hc. cbn [negb].
    unfold bind at 1. rewrite sync_empty by assumption.
    unfold bind at 1, lift at 1. now rewrite Hlow. }
  rewrite Hstart. clear Hstart. split.
  - intros t' Hw. unfold bind at 1. rewrite spy_write, Hw. now rewrite Hb.
  - intros t1 t2 Hw1 Hw2. unfold bind at 1. rewrite spy_write, Hw1.
    unfold bind at 1, lift at 1. rewrite Hhigh, spy_write.
    cbn [_ftdi inner _write_buff]. rewrite Hw2.
    unfold sent. cbn [_ftdi calls]. now rewrite Hb, <- app_assoc.
Qed.

End ResetRefused.

(** X12 on a port that refuses writes. *)
Lemma reset_stops_at_refused_write_witness :
  reset pyftdi_opcodes (mkC2 (mkSpy (mkJammed "stall") []) [])
  = (Raise (FtdiError "stall"),
     mkC2 (mkSpy (mkJammed "stall") [CallWrite [0x80; 2; 1]]) []).
Proof.
  exact (proj1 (reset_stops_at_refused_write pyftdi_opcodes eq_refl
                  (mkC2 (mkSpy (mkJammed "stall") []) []) "stall"%string
                  eq_refl eq_refl)
           (mkJammed "stall") eq_refl).
Defined.
